(** * Integration management over a remote CRM: a shallow embedding

    The TypeScript sources [tools/manageIntegrations.ts],
    [tools/quickSetupIntegration.ts] and [utils/connection.ts] are embedded
    as programs of a small free monad over the calls they issue to the
    remote platform (the jsforce [Connection]).  The remote platform is a
    parameter: a handler that answers each call with a result or a thrown
    error.  Theorems quantify over every handler; a reference store is
    given at the end of the definitions to run the programs concretely. *)

From Stdlib Require Import Ascii String.
From stdpp Require Import gmap strings list fin_maps pretty.
Local Open Scope string_scope.
Set Warnings "-register-all".

(** ** JavaScript values *)

Module JS.

Inductive value :=
| VUndefined
| VNull
| VBool (b : bool)
| VNum (n : Z)
| VStr (s : string)
| VArr (items : list value)
| VObj (props : list (string * value)).

(** [Boolean(v)]: the test performed by [if (v)], [v || d] and [v ? a : b]. *)
Definition truthy (v : value) : bool :=
  match v with
  | VUndefined | VNull => false
  | VBool b => b
  | VNum n => negb (n =? 0)%Z
  | VStr s => negb (String.eqb s "")
  | VArr _ | VObj _ => true
  end.

(** [a || b] *)
Definition or_else (a b : value) : value := if truthy a then a else b.

(** [String(v)], as used by template literals. *)
Fixpoint ToString (v : value) : string :=
  match v with
  | VUndefined => "undefined"
  | VNull => "null"
  | VBool b => if b then "true" else "false"
  | VNum n => pretty n
  | VStr s => s
  | VArr items =>
      String.concat ","
        (map (fun x => match x with
                       | VUndefined | VNull => ""
                       | _ => ToString x
                       end) items)
  | VObj _ => "[object Object]"
  end.

Definition dq : string := String (ascii_of_nat 34) EmptyString.
Definition LF : string := String (ascii_of_nat 10) EmptyString.

Definition hex_digit (n : nat) : ascii :=
  ascii_of_nat (if (n <? 10)%nat then 48 + n else 87 + n).

(** Escaping of one character inside a JSON string literal. *)
Definition json_escape (c : ascii) : string :=
  let n := nat_of_ascii c in
  if (n =? 34)%nat then "\" +:+ dq
  else if (n =? 92)%nat then "\\"
  else if (n =? 8)%nat then "\b"
  else if (n =? 12)%nat then "\f"
  else if (n =? 10)%nat then "\n"
  else if (n =? 13)%nat then "\r"
  else if (n =? 9)%nat then "\t"
  else if (n <? 32)%nat then
    "\u00" +:+ String (hex_digit (n / 16)) (String (hex_digit (n mod 16)) EmptyString)
  else String c EmptyString.

Fixpoint json_escape_string (s : string) : string :=
  match s with
  | EmptyString => EmptyString
  | String c r => json_escape c +:+ json_escape_string r
  end.

Definition json_quote (s : string) : string := dq +:+ json_escape_string s +:+ dq.

(** [JSON.stringify(v)]; [None] stands for the result [undefined]. *)
Fixpoint JSON_stringify (v : value) : option string :=
  match v with
  | VUndefined => None
  | VNull => Some "null"
  | VBool b => Some (if b then "true" else "false")
  | VNum n => Some (pretty n)
  | VStr s => Some (json_quote s)
  | VArr items =>
      Some ("[" +:+ String.concat ","
                      (map (fun x => default "null" (JSON_stringify x)) items)
                +:+ "]")
  | VObj props =>
      Some ("{" +:+ String.concat ","
                      (omap (fun kv => match JSON_stringify (snd kv) with
                                       | Some s => Some (json_quote (fst kv) +:+ ":" +:+ s)
                                       | None => None
                                       end) props)
                +:+ "}")
  end.

(** [s.startsWith(p)] *)
Fixpoint starts_with (s p : string) {struct p} : bool :=
  match p with
  | EmptyString => true
  | String a p' =>
      match s with
      | EmptyString => false
      | String b s' => Ascii.eqb a b && starts_with s' p'
      end
  end.

(** [hay.includes(needle)] *)
Fixpoint includes (hay needle : string) : bool :=
  starts_with hay needle
  || match hay with
     | EmptyString => false
     | String _ r => includes r needle
     end.

(** Thrown values: instances of [Error], or anything else. *)
Inductive exn :=
| ErrorObj (name message : string)
| Thrown (v : value).

Definition Error (message : string) : exn := ErrorObj "Error" message.
Definition TypeError (message : string) : exn := ErrorObj "TypeError" message.

Definition instanceof_Error (e : exn) : bool :=
  match e with ErrorObj _ _ => true | Thrown _ => false end.

(** [String(e)]; for an [Error] this is [Error.prototype.toString]. *)
Definition String_of (e : exn) : string :=
  match e with
  | ErrorObj name message =>
      if String.eqb name "" then message
      else if String.eqb message "" then name
      else name +:+ ": " +:+ message
  | Thrown v => ToString v
  end.

(** [error instanceof Error ? error.message : String(error)] *)
Definition error_text (e : exn) : string :=
  match e with
  | ErrorObj _ message => message
  | Thrown v => ToString v
  end.

(** A plain object seen as a finite map from property names to values;
    a missing property reads as [undefined]. *)
Definition get (o : gmap string value) (k : string) : value :=
  default VUndefined (o !! k).

End JS.
Export JS.

(** ** The remote platform as a signature of calls *)

Module Remote.

(** Result of [sobject(..).create/update/delete]. *)
Record SaveResult := { id : string }.

(** Result of [conn.query]. *)
Record QueryResult := { records : list (gmap string value) }.

(** The methods of the jsforce [Connection] that the sources call, indexed
    by the type of what the returned promise resolves to. *)
Inductive call : Type -> Type :=
| Login (loginUrl username password : string) : call unit
| Describe (sobject : string) : call unit
| Query (soql : string) : call QueryResult
| SobjectCreate (sobject : string) (record : gmap string value) : call SaveResult
| SobjectUpdate (sobject : string) (record : gmap string value) : call SaveResult
| SobjectDelete (sobject : string) (id : value) : call SaveResult
| MetadataCreate (type : string) (metadata : gmap string value) : call unit
| MetadataUpdate (type : string) (metadata : gmap string value) : call unit.

(** Programs: return, throw, or await one call and continue with its
    outcome (the resolved value or the rejection). *)
Inductive prog (A : Type) : Type :=
| Ret (a : A)
| Throw (e : exn)
| Vis {X : Type} (c : call X) (k : X + exn -> prog A).
Arguments Ret {A} a.
Arguments Throw {A} e.
Arguments Vis {A X} c k.

Fixpoint bind {A B} (p : prog A) (f : A -> prog B) : prog B :=
  match p with
  | Ret a => f a
  | Throw e => Throw e
  | Vis c k => Vis c (fun r => bind (k r) f)
  end.

(** [try { p } catch (e) { h e }] *)
Fixpoint try_catch {A} (p : prog A) (h : exn -> prog A) : prog A :=
  match p with
  | Ret a => Ret a
  | Throw e => h e
  | Vis c k => Vis c (fun r => try_catch (k r) h)
  end.

(** [await c] *)
Definition await {X} (c : call X) : prog X :=
  Vis c (fun r => match r with inl x => Ret x | inr e => Throw e end).

#[global] Instance prog_ret : MRet prog := @Ret.
#[global] Instance prog_bind : MBind prog := fun A B f p => bind p f.

(** One interaction with the remote: the call and its outcome. *)
Inductive event :=
| Ev {X : Type} (c : call X) (r : X + exn).

(** A remote platform with state [W]. *)
Definition handler (W : Type) := forall X, call X -> W -> (X + exn) * W.

Fixpoint run {W A} (h : handler W) (p : prog A) (w : W)
  : (A + exn) * W * list event :=
  match p with
  | Ret a => (inl a, w, [])
  | Throw e => (inr e, w, [])
  | Vis c k =>
      let '(r, w1) := h _ c w in
      let '(res, w2, tr) := run h (k r) w1 in
      (res, w2, Ev c r :: tr)
  end.

(** The program returned rather than threw. *)
Definition returned {A} (res : A + exn) : bool :=
  match res with inl _ => true | inr _ => false end.

(** Calls that change the remote platform. *)
Definition mutates (ev : event) : bool :=
  match ev with
  | Ev (Login _ _ _) _ | Ev (Describe _) _ | Ev (Query _) _ => false
  | _ => true
  end.

End Remote.
Export Remote.

(** ** tools/manageIntegrations.ts *)

Module ManageIntegrations.

Inductive IntegrationType := whatsapp | slack | email | webhook | custom.
Inductive AuthType := none | bearer | api_key | oauth.
Inductive TriggerEvent := on_insert | on_update | on_delete.

Definition IntegrationType_str (t : IntegrationType) : string :=
  match t with
  | whatsapp => "whatsapp" | slack => "slack" | email => "email"
  | webhook => "webhook" | custom => "custom"
  end.

Definition AuthType_str (a : AuthType) : string :=
  match a with
  | none => "none" | bearer => "bearer" | api_key => "api_key" | oauth => "oauth"
  end.

Definition TriggerEvent_str (e : TriggerEvent) : string :=
  match e with
  | on_insert => "insert" | on_update => "update" | on_delete => "delete"
  end.

(** [interface IntegrationConfig].  The object arrives as JSON, and
    [update] is called with a partial one, so a property may be absent:
    [None] (or [VUndefined] for the free-form [authConfig]) is
    JavaScript's [undefined]. *)
Record IntegrationConfig := {
  name : option string;
  type : option IntegrationType;
  endpoint : option string;
  authType : option AuthType;
  authConfig : value;
  objectName : option string;
  triggerEvents : option (list TriggerEvent);
  messageTemplate : option string;
  condition : option string;
  active : option bool
}.

Inductive Operation :=
| op_create | op_list | op_update | op_delete | op_activate | op_deactivate.

(** [interface ManageIntegrationsArgs] *)
Record ManageIntegrationsArgs := {
  operation : Operation;
  integrationName : option string;
  config : option IntegrationConfig
}.

(** The [required] list of the [config] input schema, with the declared
    type of [authConfig]. *)
Definition valid_create (c : IntegrationConfig) : Prop :=
  is_Some (name c) ∧ is_Some (type c) ∧ is_Some (endpoint c) ∧
  is_Some (authType c) ∧ is_Some (objectName c) ∧
  is_Some (triggerEvents c) ∧ is_Some (messageTemplate c) ∧
  is_Some (active c) ∧
  (authConfig c = VUndefined ∨ ∃ props, authConfig c = VObj props).

(** The tool result [{ content: [{ type, text }] }]. *)
Record ContentItem := { item_type : string; text : string }.
Record Response := { content : list ContentItem }.

Definition text_response (t : string) : Response :=
  {| content := [ {| item_type := "text"; text := t |} ] |}.

(** Reading optional properties. *)
Definition str_value (o : option string) : value :=
  match o with Some s => VStr s | None => VUndefined end.

Definition bool_value (o : option bool) : value :=
  match o with Some b => VBool b | None => VUndefined end.

Definition enum_value {A} (f : A -> string) (o : option A) : value :=
  match o with Some a => VStr (f a) | None => VUndefined end.

(** [`${o}`] *)
Definition show (o : option string) : string := ToString (str_value o).

(** [steps.push(line)] *)
Definition push (steps : list string) (line : string) : list string :=
  (steps ++ [line])%list.

(** [config.p] when [config] itself may be [undefined] (V8's message). *)
Definition deref {A} (o : option A) (p : string) : prog A :=
  match o with
  | Some a => Ret a
  | None =>
      Throw (TypeError ("Cannot read properties of undefined (reading '"
                        +:+ p +:+ "')"))
  end.

Record FieldDef := {
  fd_name : string; fd_type : string; fd_length : option Z; fd_label : string
}.

Definition fields : list FieldDef := [
  {| fd_name := "Type__c"; fd_type := "Text"; fd_length := Some 50%Z; fd_label := "Type" |};
  {| fd_name := "Endpoint__c"; fd_type := "LongTextArea"; fd_length := Some 1000%Z; fd_label := "Endpoint" |};
  {| fd_name := "Auth_Type__c"; fd_type := "Text"; fd_length := Some 50%Z; fd_label := "Auth Type" |};
  {| fd_name := "Auth_Config__c"; fd_type := "LongTextArea"; fd_length := Some 2000%Z; fd_label := "Auth Config" |};
  {| fd_name := "Object_Name__c"; fd_type := "Text"; fd_length := Some 100%Z; fd_label := "Object Name" |};
  {| fd_name := "Trigger_Events__c"; fd_type := "Text"; fd_length := Some 100%Z; fd_label := "Trigger Events" |};
  {| fd_name := "Message_Template__c"; fd_type := "LongTextArea"; fd_length := Some 1000%Z; fd_label := "Message Template" |};
  {| fd_name := "Condition__c"; fd_type := "LongTextArea"; fd_length := Some 1000%Z; fd_label := "Condition" |};
  {| fd_name := "Active__c"; fd_type := "Checkbox"; fd_length := None; fd_label := "Active" |}
].

(** [{ fullName: `Integration_Config__c.${field.name}`, ...field }] *)
Definition field_metadata (f : FieldDef) : gmap string value :=
  list_to_map
    ([("fullName", VStr ("Integration_Config__c." +:+ fd_name f));
      ("name", VStr (fd_name f));
      ("type", VStr (fd_type f))]
     ++ match fd_length f with Some n => [("length", VNum n)] | None => [] end
     ++ [("label", VStr (fd_label f))])%list.

(** [for (const field of fields) await conn.metadata.create(...)] *)
Fixpoint create_fields (fs : list FieldDef) : prog unit :=
  match fs with
  | [] => Ret tt
  | f :: rest =>
      await (MetadataCreate "CustomField" (field_metadata f));;
      create_fields rest
  end.

Definition createIntegrationConfigObject : prog unit :=
  let metadata : gmap string value :=
    list_to_map
      [("fullName", VStr "Integration_Config__c");
       ("label", VStr "Integration Config");
       ("pluralLabel", VStr "Integration Configs");
       ("nameField", VObj [("type", VStr "Text");
                           ("label", VStr "Integration Name")]);
       ("deploymentStatus", VStr "Deployed");
       ("sharingModel", VStr "ReadWrite")] in
  await (MetadataCreate "CustomObject" metadata);;
  create_fields fields.

Definition after_event (event : TriggerEvent) : string :=
  match event with
  | on_insert => "after insert"
  | on_update => "after update"
  | on_delete => "after delete"
  end.

(** [generateTriggerCode]; [events] is [config.triggerEvents], already
    known to be an array. *)
Definition generateTriggerCode (config : IntegrationConfig)
    (triggerEvents : list TriggerEvent) : string :=
  let events :=
    filter (fun s => truthy (VStr s) = true) (map after_event triggerEvents) in
  "trigger " +:+ show (objectName config) +:+ "IntegrationTrigger on "
  +:+ show (objectName config) +:+ " (" +:+ String.concat ", " events
  +:+ ") {" +:+ LF
  +:+ "    IntegrationCalloutService.handleIntegrationCallout('"
  +:+ show (name config)
  +:+ "', Trigger.new, Trigger.old, Trigger.operationType);" +:+ LF +:+ "}".

(** [generateUtilityClass]: the Apex source of the callout service. *)
Definition generateUtilityClass : string :=
"public class IntegrationCalloutService {
    
    @future(callout=true)
    public static void handleIntegrationCallout(String integrationName, List<SObject> newRecords, List<SObject> oldRecords, System.TriggerOperation operationType) {
        try {
            // Get integration config
            Integration_Config__c config = [
                SELECT Type__c, Endpoint__c, Auth_Type__c, Auth_Config__c, Message_Template__c, Condition__c, Active__c
                FROM Integration_Config__c 
                WHERE Name = :integrationName AND Active__c = true
                LIMIT 1
            ];
            
            if (config == null) return;
            
            // Process records
            for (SObject record : newRecords) {
                // Check condition if specified
                if (String.isNotBlank(config.Condition__c)) {
                    // For now, we'll skip condition checking in this basic implementation
                    // In a full implementation, you'd evaluate the SOQL condition here
                }
                
                // Prepare message
                String message = prepareMessage(config.Message_Template__c, record);
                
                // Make callout based on integration type
                makeCallout(config, message, record);
            }
        } catch (Exception e) {
            System.debug('Integration callout error: ' + e.getMessage());
        }
    }
    
    private static String prepareMessage(String template, SObject record) {
        String message = template;
        
        // Replace merge fields in template
        Map<String, Object> fieldMap = record.getPopulatedFieldsAsMap();
        for (String fieldName : fieldMap.keySet()) {
            Object fieldValue = fieldMap.get(fieldName);
            if (fieldValue != null) {
                message = message.replace('{' + fieldName + '}', String.valueOf(fieldValue));
            }
        }
        
        return message;
    }
    
    private static void makeCallout(Integration_Config__c config, String message, SObject record) {
        Http http = new Http();
        HttpRequest req = new HttpRequest();
        req.setEndpoint(config.Endpoint__c);
        req.setMethod('POST');
        req.setHeader('Content-Type', 'application/json');
        
        // Add authentication
        Map<String, Object> authConfig = (Map<String, Object>) JSON.deserializeUntyped(config.Auth_Config__c);
        
        if (config.Auth_Type__c == 'bearer' && authConfig.containsKey('token')) {
            req.setHeader('Authorization', 'Bearer ' + (String) authConfig.get('token'));
        } else if (config.Auth_Type__c == 'api_key' && authConfig.containsKey('apiKey')) {
            req.setHeader('X-API-Key', (String) authConfig.get('apiKey'));
        }
        
        // Prepare payload based on integration type
        Map<String, Object> payload = new Map<String, Object>();
        
        if (config.Type__c == 'whatsapp') {
            payload.put('phone', getPhoneFromRecord(record));
            payload.put('message', message);
        } else if (config.Type__c == 'slack') {
            payload.put('text', message);
            payload.put('channel', getSlackChannelFromConfig(authConfig));
        } else {
            payload.put('message', message);
            payload.put('data', record);
        }
        
        req.setBody(JSON.serialize(payload));
        
        try {
            HttpResponse res = http.send(req);
            System.debug('Integration response: ' + res.getStatusCode() + ' ' + res.getBody());
        } catch (Exception e) {
            System.debug('Callout error: ' + e.getMessage());
        }
    }
    
    private static String getPhoneFromRecord(SObject record) {
        // Try common phone fields
        if (record.get('Phone') != null) return (String) record.get('Phone');
        if (record.get('MobilePhone') != null) return (String) record.get('MobilePhone');
        return null;
    }
    
    private static String getSlackChannelFromConfig(Map<String, Object> authConfig) {
        return authConfig.containsKey('channel') ? (String) authConfig.get('channel') : '#general';
    }
}".

Definition createTrigger (triggerName : string) (objectName : option string)
    (triggerBody : string) : prog unit :=
  let metadata : gmap string value :=
    list_to_map
      [("fullName", VStr triggerName);
       ("tableEnumOrId", str_value objectName);
       ("status", VStr "Active");
       ("body", VStr triggerBody)] in
  await (MetadataCreate "ApexTrigger" metadata).

Definition updateTrigger (triggerName triggerBody : string) : prog unit :=
  let metadata : gmap string value :=
    list_to_map
      [("fullName", VStr triggerName);
       ("body", VStr triggerBody)] in
  await (MetadataUpdate "ApexTrigger" metadata).

Definition createApexClass (className classBody : string) : prog unit :=
  let metadata : gmap string value :=
    list_to_map
      [("fullName", VStr className);
       ("status", VStr "Active");
       ("body", VStr classBody)] in
  await (MetadataCreate "ApexClass" metadata).

(** The record inserted by step 2 of [createIntegration]. *)
Definition integrationRecord (config : IntegrationConfig)
    (triggerEvents : list TriggerEvent) : gmap string value :=
  list_to_map
    [("Name", str_value (name config));
     ("Type__c", enum_value IntegrationType_str (type config));
     ("Endpoint__c", str_value (endpoint config));
     ("Auth_Type__c", enum_value AuthType_str (authType config));
     ("Auth_Config__c",
       str_value (JSON_stringify (or_else (authConfig config) (VObj []))));
     ("Object_Name__c", str_value (objectName config));
     ("Trigger_Events__c",
       VStr (String.concat "," (map TriggerEvent_str triggerEvents)));
     ("Message_Template__c", str_value (messageTemplate config));
     ("Condition__c", or_else (str_value (condition config)) (VStr ""));
     ("Active__c", bool_value (active config))].

(** The text returned by [createIntegration] once all four steps ran. *)
Definition create_summary (config : IntegrationConfig)
    (triggerEvents : list TriggerEvent) (steps : list string) : string :=
  let events := map TriggerEvent_str triggerEvents in
  "🚀 Integration " +:+ dq +:+ show (name config) +:+ dq
  +:+ " created successfully!" +:+ LF +:+ LF
  +:+ String.concat LF steps +:+ LF +:+ LF
  +:+ "📋 Summary:" +:+ LF
  +:+ "- Type: " +:+ ToString (enum_value IntegrationType_str (type config)) +:+ LF
  +:+ "- Object: " +:+ show (objectName config) +:+ LF
  +:+ "- Events: " +:+ String.concat ", " events +:+ LF
  +:+ "- Status: "
  +:+ (if truthy (bool_value (active config)) then "Active" else "Inactive")
  +:+ LF +:+ LF
  +:+ "💡 Your integration will trigger on " +:+ String.concat "/" events
  +:+ " events for " +:+ show (objectName config) +:+ " records.".

Definition createIntegration (config : option IntegrationConfig)
  : prog Response :=
  let steps : list string := [] in
  (* Step 1: create the custom object that stores the configurations *)
  steps ← try_catch
    (await (Describe "Integration_Config__c");; mret steps)
    (fun error =>
       createIntegrationConfigObject;;
       mret (push steps "✅ Created Integration_Config__c custom object"));
  (* Step 2: store the integration configuration *)
  config ← deref config "name";
  triggerEvents ← deref (triggerEvents config) "join";
  result ← await (SobjectCreate "Integration_Config__c"
                    (integrationRecord config triggerEvents));
  let steps :=
    push steps ("✅ Created integration config record: " +:+ id result) in
  (* Step 3: create or update the trigger for the object *)
  let triggerCode := generateTriggerCode config triggerEvents in
  let triggerName := show (objectName config) +:+ "IntegrationTrigger" in
  steps ← try_catch
    (createTrigger triggerName (objectName config) triggerCode;;
     mret (push steps ("✅ Created trigger: " +:+ triggerName)))
    (fun error =>
       try_catch
         (updateTrigger triggerName triggerCode;;
          mret (push steps ("✅ Updated existing trigger: " +:+ triggerName)))
         (fun updateError =>
            mret (push steps ("⚠️ Warning: Could not create/update trigger: "
                              +:+ String_of updateError))));
  (* Step 4: create the utility class for the callouts *)
  let utilityClassName := "IntegrationCalloutService" in
  let utilityClassCode := generateUtilityClass in
  steps ← try_catch
    (createApexClass utilityClassName utilityClassCode;;
     mret (push steps ("✅ Created utility class: " +:+ utilityClassName)))
    (fun error =>
       if instanceof_Error error
          && includes (error_text error) "DUPLICATE_VALUE"
       then mret (push steps ("✅ Utility class already exists: "
                              +:+ utilityClassName))
       else mret (push steps ("⚠️ Warning: Could not create utility class: "
                              +:+ String_of error)));
  mret (text_response (create_summary config triggerEvents steps)).

Definition list_query : string :=
  LF +:+ "      SELECT Name, Type__c, Object_Name__c, Trigger_Events__c, Active__c, CreatedDate"
  +:+ LF +:+ "      FROM Integration_Config__c "
  +:+ LF +:+ "      ORDER BY CreatedDate DESC"
  +:+ LF +:+ "    ".

Definition render_integration (record : gmap string value) : string :=
  "📱 " +:+ ToString (get record "Name") +:+ LF
  +:+ "   Type: " +:+ ToString (get record "Type__c")
  +:+ " | Object: " +:+ ToString (get record "Object_Name__c") +:+ LF
  +:+ "   Events: " +:+ ToString (get record "Trigger_Events__c")
  +:+ " | Status: "
  +:+ (if truthy (get record "Active__c") then "🟢 Active" else "🔴 Inactive").

Definition no_integrations : string :=
  "No integrations found. Use 'create' operation to set up your first integration!".

Definition no_integrations_object : string :=
  "No integrations found. The Integration_Config__c object may not exist yet. Create your first integration to get started!".

Definition listIntegrations : prog Response :=
  try_catch
    (results ← await (Query list_query);
     if (length (records results) =? 0)%nat then
       mret (text_response no_integrations)
     else
       let integrationsList :=
         String.concat (LF +:+ LF) (map render_integration (records results)) in
       mret (text_response
               ("🔗 Your Integrations (" +:+ pretty (length (records results))
                +:+ " total):" +:+ LF +:+ LF +:+ integrationsList)))
    (fun error => mret (text_response no_integrations_object)).

(** [updateData] of [updateIntegration]: one assignment per guard. *)
Definition updateData (config : IntegrationConfig) : gmap string value :=
  let d : gmap string value := ∅ in
  let d := if truthy (str_value (endpoint config))
           then <["Endpoint__c" := str_value (endpoint config)]> d else d in
  let d := if truthy (authConfig config)
           then <["Auth_Config__c" :=
                    str_value (JSON_stringify (authConfig config))]> d
           else d in
  let d := if truthy (str_value (messageTemplate config))
           then <["Message_Template__c" := str_value (messageTemplate config)]> d
           else d in
  let d := match condition config with
           | Some c => <["Condition__c" := VStr c]> d
           | None => d
           end in
  let d := match active config with
           | Some b => <["Active__c" := VBool b]> d
           | None => d
           end in
  d.

(** [{ Name: integrationName, ...updateData }] *)
Definition update_payload (integrationName : option string)
    (data : gmap string value) : gmap string value :=
  data ∪ {["Name" := str_value integrationName]}.

Definition updateIntegration (integrationName : option string)
    (config : option IntegrationConfig) : prog Response :=
  config ← deref config "endpoint";
  result ← await (SobjectUpdate "Integration_Config__c"
                    (update_payload integrationName (updateData config)));
  mret (text_response ("✅ Integration " +:+ dq +:+ show integrationName
                       +:+ dq +:+ " updated successfully!")).

Definition delete_query (integrationName : option string) : string :=
  "SELECT Id FROM Integration_Config__c WHERE Name = '"
  +:+ show integrationName +:+ "'".

Definition not_found (integrationName : option string) : exn :=
  Error ("Integration " +:+ dq +:+ show integrationName +:+ dq +:+ " not found").

Definition deleteIntegration (integrationName : option string)
  : prog Response :=
  (* Find the integration record *)
  results ← await (Query (delete_query integrationName));
  match records results with
  | [] => Throw (not_found integrationName)
  | first :: _ =>
      await (SobjectDelete "Integration_Config__c" (get first "Id"));;
      mret (text_response ("🗑️ Integration " +:+ dq +:+ show integrationName
                           +:+ dq +:+ " deleted successfully!"))
  end.

Definition activateIntegration (integrationName : option string)
    (active : bool) : prog Response :=
  result ← await (SobjectUpdate "Integration_Config__c"
                    (update_payload integrationName
                       {["Active__c" := VBool active]}));
  let status := if active then "activated" else "deactivated" in
  let emoji := if active then "🟢" else "🔴" in
  mret (text_response (emoji +:+ " Integration " +:+ dq
                       +:+ show integrationName +:+ dq +:+ " " +:+ status
                       +:+ " successfully!")).

Definition error_response (error : exn) : Response :=
  text_response ("Error managing integration: " +:+ error_text error).

(** The [default] branch of the switch is unreachable at type [Operation]. *)
Definition handleManageIntegrations (args : ManageIntegrationsArgs)
  : prog Response :=
  try_catch
    (match operation args with
     | op_create => createIntegration (config args)
     | op_list => listIntegrations
     | op_update => updateIntegration (integrationName args) (config args)
     | op_delete => deleteIntegration (integrationName args)
     | op_activate => activateIntegration (integrationName args) true
     | op_deactivate => activateIntegration (integrationName args) false
     end)
    (fun error => mret (error_response error)).

End ManageIntegrations.
Export ManageIntegrations.

(** ** tools/quickSetupIntegration.ts *)

Module QuickSetup.

Inductive QuickSetupType :=
| whatsapp_lead | slack_opportunity | email_case | webhook_custom.

Definition QuickSetupType_str (t : QuickSetupType) : string :=
  match t with
  | whatsapp_lead => "whatsapp_lead"
  | slack_opportunity => "slack_opportunity"
  | email_case => "email_case"
  | webhook_custom => "webhook_custom"
  end.

(** The [config] property of [interface QuickSetupArgs]. *)
Record QuickSetupConfig := {
  whatsappApiToken : option string;
  phoneNumber : option string;
  slackWebhookUrl : option string;
  slackChannel : option string;
  emailEndpoint : option string;
  emailApiKey : option string;
  webhookUrl : option string;
  webhookHeaders : option (list (string * string));
  qs_messageTemplate : string;
  qs_condition : option string
}.

(** [interface QuickSetupArgs] *)
Record QuickSetupArgs := {
  qs_type : QuickSetupType;
  qs_objectName : string;
  qs_config : QuickSetupConfig
}.

(** [o || d] on an optional string. *)
Definition or_str (o : option string) (d : string) : string :=
  ToString (or_else (str_value o) (VStr d)).

(** [baseConfig], completed per preset by [createQuickSetupConfig]. *)
Record BaseConfig := {
  base_name : string;
  base_objectName : string;
  base_triggerEvents : list TriggerEvent;
  base_messageTemplate : string;
  base_condition : option string;
  base_active : bool
}.

(** [{ ...baseConfig, type, endpoint, authType, authConfig }] *)
Definition spread (b : BaseConfig) (t : IntegrationType) (e : string)
    (a : AuthType) (ac : value) : IntegrationConfig :=
  {| name := Some (base_name b);
     type := Some t;
     endpoint := Some e;
     authType := Some a;
     authConfig := ac;
     objectName := Some (base_objectName b);
     triggerEvents := Some (base_triggerEvents b);
     messageTemplate := Some (base_messageTemplate b);
     condition := base_condition b;
     active := Some (base_active b) |}.

(** [now] is the reading of [Date.now()].  The [default] branch of the
    switch is unreachable at type [QuickSetupType]; it is reached by cast
    arguments, see [createQuickSetupConfig_cast]. *)
Definition createQuickSetupConfig (args : QuickSetupArgs) (now : N)
  : IntegrationConfig :=
  let baseConfig :=
    {| base_name := QuickSetupType_str (qs_type args) +:+ "_"
                    +:+ qs_objectName args +:+ "_" +:+ pretty now;
       base_objectName := qs_objectName args;
       base_triggerEvents := [on_insert];
       base_messageTemplate := qs_messageTemplate (qs_config args);
       base_condition := qs_condition (qs_config args);
       base_active := true |} in
  match qs_type args with
  | whatsapp_lead =>
      spread baseConfig whatsapp
        "https://graph.facebook.com/v17.0/YOUR_PHONE_NUMBER_ID/messages"
        bearer
        (VObj [("token", str_value (whatsappApiToken (qs_config args)));
               ("phoneNumber", str_value (phoneNumber (qs_config args)))])
  | slack_opportunity =>
      let c :=
        spread baseConfig slack
          (or_str (slackWebhookUrl (qs_config args)) "")
          none
          (VObj [("channel",
                  VStr (or_str (slackChannel (qs_config args)) "#sales"))]) in
      {| name := name c; type := type c; endpoint := endpoint c;
         authType := authType c; authConfig := authConfig c;
         objectName := objectName c;
         triggerEvents := Some [on_insert; on_update];
         messageTemplate := messageTemplate c; condition := condition c;
         active := active c |}
  | email_case =>
      spread baseConfig email
        (or_str (emailEndpoint (qs_config args))
           "https://api.sendgrid.com/v3/mail/send")
        api_key
        (VObj [("apiKey", str_value (emailApiKey (qs_config args)))])
  | webhook_custom =>
      spread baseConfig webhook
        (or_str (webhookUrl (qs_config args)) "")
        none
        (match webhookHeaders (qs_config args) with
         | Some headers => VObj (map (fun kv => (fst kv, VStr (snd kv))) headers)
         | None => VObj []
         end)
  end.

Definition quick_error_response (error : exn) : Response :=
  text_response ("Error setting up quick integration: " +:+ error_text error).

(** The dynamic [import] of the sibling module resolves to
    [handleManageIntegrations]. *)
Definition handleQuickSetupIntegration (args : QuickSetupArgs) (now : N)
  : prog Response :=
  try_catch
    (let integrationConfig := createQuickSetupConfig args now in
     (* Use the existing integration management logic *)
     handleManageIntegrations
       {| operation := op_create;
          integrationName := None;
          config := Some integrationConfig |})
    (fun error => mret (quick_error_response error)).

End QuickSetup.
Export QuickSetup.

(** ** utils/connection.ts *)

Module ConnectionUtils.

(** [new Connection({ loginUrl })] *)
Record Connection := { loginUrl : string }.

(** [process.env.X] *)
Definition env_get (env : gmap string string) (k : string) : value :=
  str_value (env !! k).

Definition missing_credentials : exn :=
  Error "Missing required Salesforce credentials: SALESFORCE_USERNAME, SALESFORCE_PASSWORD, SALESFORCE_TOKEN".

Definition createUserPasswordConnection (env : gmap string string)
  : prog Connection :=
  let username := env_get env "SALESFORCE_USERNAME" in
  let password := env_get env "SALESFORCE_PASSWORD" in
  let token := env_get env "SALESFORCE_TOKEN" in
  let instanceUrl :=
    or_else (env_get env "SALESFORCE_INSTANCE_URL")
            (VStr "https://login.salesforce.com") in
  if negb (truthy username) || negb (truthy password) || negb (truthy token)
  then Throw missing_credentials
  else
    let conn := {| loginUrl := ToString instanceUrl |} in
    await (Login (loginUrl conn) (ToString username)
             (ToString password +:+ ToString token));;
    mret conn.

End ConnectionUtils.
Export ConnectionUtils.

(** ** A reference remote platform *)

Module Org.

(** Modelled from the spec: the remote platform behind the jsforce
    [Connection], whose code is not part of the sources.  It keeps the
    "integration configuration store: a remote record type (one record
    per integration)", answers the two queries the sources issue, applies
    an update "as a targeted field update keyed by name", and deploys
    triggers and classes by name. *)
Record Org := {
  provisioned : bool;
  configs : list (gmap string value);
  next_id : N;
  triggers : gmap string (gmap string value);
  classes : gmap string (gmap string value)
}.

Definition empty_org : Org :=
  {| provisioned := false; configs := []; next_id := 1%N;
     triggers := ∅; classes := ∅ |}.

Definition named (n : value) (record : gmap string value) : bool :=
  match n, get record "Name" with
  | VStr a, VStr b => String.eqb a b
  | _, _ => false
  end.

(** What an update does to one stored record. *)
Definition apply_update (payload record : gmap string value)
  : gmap string value :=
  if named (get payload "Name") record then payload ∪ record else record.

Definition has_id (i : value) (record : gmap string value) : bool :=
  match i, get record "Id" with
  | VStr a, VStr b => String.eqb a b
  | _, _ => false
  end.

Fixpoint strip_prefix (p s : string) : option string :=
  match p, s with
  | EmptyString, _ => Some s
  | String a p', String b s' =>
      if Ascii.eqb a b then strip_prefix p' s' else None
  | String _ _, EmptyString => None
  end.

(** [s] without its last character, when that character is a quote. *)
Fixpoint strip_quote (s : string) : option string :=
  match s with
  | EmptyString => None
  | String c EmptyString => if Ascii.eqb c "'" then Some EmptyString else None
  | String c r => String c <$> strip_quote r
  end.

(** The name literal of a lookup query; literals holding a quote or a
    backslash are not interpreted. *)
Definition lookup_literal (soql : string) : option string :=
  lit ← strip_prefix "SELECT Id FROM Integration_Config__c WHERE Name = '" soql
         ≫= strip_quote;
  if includes lit "'" || includes lit "\" then None else Some lit.

Definition missing_object : exn :=
  ErrorObj "INVALID_TYPE" "sObject type 'Integration_Config__c' is not supported.".

Definition full_name (metadata : gmap string value) : string :=
  ToString (get metadata "fullName").

Definition org_handler : handler Org := fun X c =>
  match c in call X return Org -> (X + exn) * Org with
  | Login _ _ _ => fun o => (inl tt, o)
  | Describe _ => fun o =>
      if provisioned o then (inl tt, o)
      else (inr (ErrorObj "NOT_FOUND" "The requested resource does not exist"), o)
  | Query soql => fun o =>
      if negb (provisioned o) then (inr missing_object, o)
      else if String.eqb soql list_query then
        (inl {| records := configs o |}, o)
      else match lookup_literal soql with
           | Some lit =>
               (inl {| records := filter (fun r => named (VStr lit) r = true)
                                         (configs o) |}, o)
           | None => (inr (ErrorObj "MALFORMED_QUERY" "unexpected token"), o)
           end
  | SobjectCreate _ record => fun o =>
      if negb (provisioned o) then (inr missing_object, o)
      else
        let i := "a0X" +:+ pretty (next_id o) in
        (inl {| id := i |},
         {| provisioned := provisioned o;
            configs := <["Id" := VStr i]> record :: configs o;
            next_id := N.succ (next_id o);
            triggers := triggers o; classes := classes o |})
  | SobjectUpdate _ payload => fun o =>
      if negb (provisioned o) then (inr missing_object, o)
      else
        (inl {| id := "" |},
         {| provisioned := provisioned o;
            configs := map (apply_update payload) (configs o);
            next_id := next_id o;
            triggers := triggers o; classes := classes o |})
  | SobjectDelete _ i => fun o =>
      if existsb (has_id i) (configs o) then
        (inl {| id := ToString i |},
         {| provisioned := provisioned o;
            configs := filter (fun r => has_id i r = false) (configs o);
            next_id := next_id o;
            triggers := triggers o; classes := classes o |})
      else (inr (ErrorObj "ENTITY_IS_DELETED" "entity is deleted"), o)
  | MetadataCreate type metadata => fun o =>
      if String.eqb type "CustomObject" then
        if provisioned o then
          (inr (ErrorObj "DUPLICATE_DEVELOPER_NAME" "object already exists"), o)
        else
          (inl tt,
           {| provisioned := true; configs := configs o; next_id := next_id o;
              triggers := triggers o; classes := classes o |})
      else if String.eqb type "CustomField" then
        if provisioned o then (inl tt, o) else (inr missing_object, o)
      else if String.eqb type "ApexTrigger" then
        match triggers o !! full_name metadata with
        | Some _ =>
            (inr (ErrorObj "DUPLICATE_VALUE" "DUPLICATE_VALUE: trigger name already in use"), o)
        | None =>
            (inl tt,
             {| provisioned := provisioned o; configs := configs o;
                next_id := next_id o;
                triggers := <[full_name metadata := metadata]> (triggers o);
                classes := classes o |})
        end
      else if String.eqb type "ApexClass" then
        match classes o !! full_name metadata with
        | Some _ =>
            (inr (ErrorObj "DUPLICATE_VALUE" "DUPLICATE_VALUE: class name already in use"), o)
        | None =>
            (inl tt,
             {| provisioned := provisioned o; configs := configs o;
                next_id := next_id o; triggers := triggers o;
                classes := <[full_name metadata := metadata]> (classes o) |})
        end
      else (inr (ErrorObj "INVALID_TYPE" "unknown metadata type"), o)
  | MetadataUpdate type metadata => fun o =>
      match triggers o !! full_name metadata with
      | Some old =>
          (inl tt,
           {| provisioned := provisioned o; configs := configs o;
              next_id := next_id o;
              triggers := <[full_name metadata := metadata ∪ old]> (triggers o);
              classes := classes o |})
      | None => (inr (ErrorObj "NOT_FOUND" "no such component"), o)
      end
  end.

(** Fault injection: a script of forced outcomes, consumed one per call;
    [Some e] makes the call throw [e] and leaves the platform untouched. *)
Definition with_faults {W} (h : handler W) : handler (W * list (option exn)) :=
  fun X c '(w, script) =>
    match script with
    | Some e :: rest => (inr e, (w, rest))
    | None :: rest => let '(r, w') := h X c w in (r, (w', rest))
    | [] => let '(r, w') := h X c w in (r, (w', []))
    end.

End Org.
Export Org.

(** ** The four steps of [createIntegration], read off a run *)

Module Steps.

Inductive Step := SchemaStep | RecordStep | TriggerStep | ClassStep.

#[global] Instance Step_eq_dec : EqDecision Step.
Proof. solve_decision. Defined.

(** The step a remote call belongs to.  The [describe] probe of step 1
    only reads; the step itself is the provisioning that follows it. *)
Definition step_of (ev : event) : option Step :=
  match ev with
  | Ev (MetadataCreate type _) _ =>
      if String.eqb type "CustomObject" || String.eqb type "CustomField"
      then Some SchemaStep
      else if String.eqb type "ApexTrigger" then Some TriggerStep
      else if String.eqb type "ApexClass" then Some ClassStep
      else None
  | Ev (MetadataUpdate type _) _ =>
      if String.eqb type "ApexTrigger" then Some TriggerStep else None
  | Ev (SobjectCreate _ _) _ => Some RecordStep
  | _ => None
  end.

Definition in_step (s : Step) (ev : event) : bool :=
  bool_decide (step_of ev = Some s).

(** The steps attempted in a run, in the order schema, record, trigger,
    class. *)
Definition attempted (tr : list event) : list Step :=
  List.filter (fun s => existsb (in_step s) tr)
    [SchemaStep; RecordStep; TriggerStep; ClassStep].

(** The error a step ended with: that of its last call, if it threw. *)
Definition step_error (s : Step) (tr : list event) : option exn :=
  match last (List.filter (in_step s) tr) with
  | Some (Ev _ (inr e)) => Some e
  | _ => None
  end.

Definition step_succeeded (s : Step) (tr : list event) : bool :=
  match last (List.filter (in_step s) tr) with
  | Some (Ev _ (inl _)) => true
  | _ => false
  end.

(** Some step failed although the step before it had succeeded. *)
Definition failed_after_success (tr : list event) : bool :=
  (step_succeeded SchemaStep tr && bool_decide (is_Some (step_error RecordStep tr)))
  || (step_succeeded RecordStep tr && bool_decide (is_Some (step_error TriggerStep tr)))
  || (step_succeeded TriggerStep tr && bool_decide (is_Some (step_error ClassStep tr))).

(** The step a line of the summary reports on. *)
Definition line_step (line : string) : option Step :=
  if starts_with line "✅ Created Integration_Config__c custom object"
  then Some SchemaStep
  else if starts_with line "✅ Created integration config record: "
  then Some RecordStep
  else if starts_with line "✅ Created trigger: "
          || starts_with line "✅ Updated existing trigger: "
          || starts_with line "⚠️ Warning: Could not create/update trigger: "
  then Some TriggerStep
  else if starts_with line "✅ Created utility class: "
          || starts_with line "✅ Utility class already exists: "
          || starts_with line "⚠️ Warning: Could not create utility class: "
  then Some ClassStep
  else None.

Definition trigger_warning (e : exn) : string :=
  "⚠️ Warning: Could not create/update trigger: " +:+ String_of e.

Definition class_warning (e : exn) : string :=
  "⚠️ Warning: Could not create utility class: " +:+ String_of e.

(** The test of the [catch] block of step 4. *)
Definition duplicate_value (e : exn) : bool :=
  instanceof_Error e && includes (error_text e) "DUPLICATE_VALUE".

Definition create_args (c : IntegrationConfig) : ManageIntegrationsArgs :=
  {| operation := op_create; integrationName := None; config := Some c |}.

End Steps.
Export Steps.

(** ** Contracts on a remote platform, and sample inputs *)

Module Contracts.

(** The remote applies an update of configuration records as the targeted
    field update keyed by name of [apply_update], and leaves the store as
    it is when the update is rejected.  [store] reads the configuration
    records off the state of the platform. *)
Definition targeted_update {W} (h : handler W)
    (store : W -> list (gmap string value)) : Prop :=
  forall payload w,
    let '(r, w') := h _ (SobjectUpdate "Integration_Config__c" payload) w in
    store w' = match r with
               | inl _ => map (apply_update payload) (store w)
               | inr _ => store w
               end.

(** Two stored records agree on a field. *)
Definition same_field (f : string) (old new : gmap string value) : Prop :=
  new !! f = old !! f.

(** A partial configuration that sets [active] and nothing else. *)
Definition only_active (b : bool) : IntegrationConfig :=
  {| name := None; type := None; endpoint := None; authType := None;
     authConfig := VUndefined; objectName := None; triggerEvents := None;
     messageTemplate := None; condition := None; active := Some b |}.

(** The payload and the success text of the three operations that write
    fields of an existing configuration. *)
Definition written_payload (args : ManageIntegrationsArgs)
  : option (gmap string value) :=
  match operation args with
  | op_update =>
      (fun c => update_payload (integrationName args) (updateData c))
        <$> config args
  | op_activate =>
      Some (update_payload (integrationName args) {["Active__c" := VBool true]})
  | op_deactivate =>
      Some (update_payload (integrationName args) {["Active__c" := VBool false]})
  | _ => None
  end.

Definition success_text (args : ManageIntegrationsArgs) : string :=
  match operation args with
  | op_activate =>
      "🟢 Integration " +:+ dq +:+ show (integrationName args) +:+ dq
      +:+ " activated successfully!"
  | op_deactivate =>
      "🔴 Integration " +:+ dq +:+ show (integrationName args) +:+ dq
      +:+ " deactivated successfully!"
  | _ =>
      "✅ Integration " +:+ dq +:+ show (integrationName args) +:+ dq
      +:+ " updated successfully!"
  end.

(** An environment variable is missing when unset or empty. *)
Definition missing (env : gmap string string) (k : string) : Prop :=
  env !! k = None \/ env !! k = Some "".

Definition required_credentials : list string :=
  ["SALESFORCE_USERNAME"; "SALESFORCE_PASSWORD"; "SALESFORCE_TOKEN"].

(** [SALESFORCE_INSTANCE_URL], or the default login URL. *)
Definition login_url (env : gmap string string) : string :=
  match env !! "SALESFORCE_INSTANCE_URL" with
  | Some u => if String.eqb u "" then "https://login.salesforce.com" else u
  | None => "https://login.salesforce.com"
  end.

(** The events of a run that insert a configuration record all carry
    property [P]. *)
Definition inserted_records (P : gmap string value -> Prop)
    (tr : list event) : Prop :=
  Forall (fun ev => match ev with
                    | Ev (SobjectCreate _ record) _ => P record
                    | _ => True
                    end) tr.

End Contracts.
Export Contracts.

Module Samples.

Definition lead_hook : IntegrationConfig :=
  {| name := Some "lead_hook"; type := Some webhook;
     endpoint := Some "https://example.test/hook"; authType := Some none;
     authConfig := VUndefined; objectName := Some "Lead";
     triggerEvents := Some [on_insert; on_update];
     messageTemplate := Some "Hi {Name}"; condition := None;
     active := Some true |}.

(** The platform after [lead_hook] was created on an empty one. *)
Definition org_with_lead_hook : Org :=
  Eval vm_compute in
    snd (fst (run org_handler (handleManageIntegrations (create_args lead_hook))
                empty_org)).

Definition storage_error : exn :=
  ErrorObj "STORAGE_LIMIT_EXCEEDED" "storage limit exceeded".

(** The probe and the eleven provisioning calls behave; the insert of the
    record is rejected. *)
Definition insert_rejected : list (option exn) :=
  (replicate 11 None ++ [Some storage_error])%list.

(** A partial configuration with empty texts and [active: false]. *)
Definition blanking : IntegrationConfig :=
  {| name := None; type := None; endpoint := Some ""; authType := None;
     authConfig := VNull; objectName := None; triggerEvents := None;
     messageTemplate := Some ""; condition := Some ""; active := Some false |}.

Definition env_no_url : gmap string string :=
  list_to_map [("SALESFORCE_USERNAME", "user@example.test");
               ("SALESFORCE_PASSWORD", "pw");
               ("SALESFORCE_TOKEN", "tok")].

Definition env_no_token : gmap string string :=
  list_to_map [("SALESFORCE_USERNAME", "user@example.test");
               ("SALESFORCE_PASSWORD", "pw");
               ("SALESFORCE_INSTANCE_URL", "https://test.salesforce.com")].

End Samples.
Export Samples.

(** ** utils/connection.ts: the client-credentials grant and the selector *)

Module ConnectionFlow.

(** The request passed to [fetch]; [fetch_body] is the list of pairs given
    to [URLSearchParams]. *)
Record FetchRequest := {
  fetch_url : string;
  fetch_method : string;
  fetch_headers : list (string * string);
  fetch_body : list (string * string)
}.

(** What the code reads of the response: [ok], [statusText], and the
    outcome of [await response.json()]. *)
Record FetchResponse := {
  ok : bool;
  statusText : string;
  json : value + exn
}.

(** [v.k] for a parsed JSON value [v] and a key that no primitive or array
    defines: a [TypeError] on [null], the property of an object, and
    [undefined] otherwise. *)
Definition read_property (v : value) (k : string) : value + exn :=
  match v with
  | VUndefined | VNull =>
      inr (TypeError ("Cannot read properties of " +:+ ToString v
                      +:+ " (reading '" +:+ k +:+ "')"))
  | VObj props =>
      inl (match last (filter (fun kv => fst kv = k) props) with
           | Some kv => snd kv
           | None => VUndefined
           end)
  | _ => inl VUndefined
  end.

(** The connection built by [createOAuthConnection]: the options given to
    [new Connection] and those given to [conn.initialize]. *)
Record OAuthConnection := {
  oauth2_clientId : string;
  oauth2_clientSecret : string;
  oauth2_redirectUri : string;
  constructed_instanceUrl : string;
  initialized_instanceUrl : value;
  initialized_accessToken : value
}.

Inductive SalesforceConnection :=
| PasswordConnection (conn : Connection)
| ClientCredentialsConnection (conn : OAuthConnection).

Definition missing_oauth_credentials : exn :=
  Error "Missing required OAuth credentials: SALESFORCE_CLIENT_ID, SALESFORCE_CLIENT_SECRET, SALESFORCE_INSTANCE_URL".

Definition token_request (clientId clientSecret instanceUrl : string)
  : FetchRequest :=
  {| fetch_url := instanceUrl +:+ "/services/oauth2/token";
     fetch_method := "POST";
     fetch_headers := [("Content-Type", "application/x-www-form-urlencoded")];
     fetch_body := [("grant_type", "client_credentials");
                    ("client_id", clientId);
                    ("client_secret", clientSecret)] |}.

(** [fetch] is the outcome of the one HTTP exchange the function makes. *)
Definition createOAuthConnection (env : gmap string string)
    (fetch : FetchRequest -> FetchResponse + exn) : OAuthConnection + exn :=
  let clientId := env_get env "SALESFORCE_CLIENT_ID" in
  let clientSecret := env_get env "SALESFORCE_CLIENT_SECRET" in
  let instanceUrl := env_get env "SALESFORCE_INSTANCE_URL" in
  if negb (truthy clientId) || negb (truthy clientSecret)
     || negb (truthy instanceUrl)
  then inr missing_oauth_credentials
  else
    (* Use client credentials flow *)
    match fetch (token_request (ToString clientId) (ToString clientSecret)
                   (ToString instanceUrl)) with
    | inr e => inr e
    | inl response =>
        if negb (ok response) then
          inr (Error ("OAuth authentication failed: " +:+ statusText response))
        else
          match json response with
          | inr e => inr e
          | inl tokenData =>
              match read_property tokenData "instance_url" with
              | inr e => inr e
              | inl instance_url =>
                  match read_property tokenData "access_token" with
                  | inr e => inr e
                  | inl access_token =>
                      inl {| oauth2_clientId := ToString clientId;
                             oauth2_clientSecret := ToString clientSecret;
                             oauth2_redirectUri := "http://localhost:1717/oauth2/callback";
                             constructed_instanceUrl := ToString instanceUrl;
                             initialized_instanceUrl := instance_url;
                             initialized_accessToken := access_token |}
                  end
              end
          end
    end.

Definition createSalesforceConnection (env : gmap string string)
    (fetch : FetchRequest -> FetchResponse + exn)
  : prog SalesforceConnection :=
  let connectionType :=
    or_else (env_get env "SALESFORCE_CONNECTION_TYPE") (VStr "User_Password") in
  if String.eqb (ToString connectionType) "OAuth_2.0_Client_Credentials" then
    match createOAuthConnection env fetch with
    | inl conn => Ret (ClientCredentialsConnection conn)
    | inr e => Throw e
    end
  else
    conn ← createUserPasswordConnection env;
    mret (PasswordConnection conn).

End ConnectionFlow.
Export ConnectionFlow.

(** ** The request handler of the server entry point *)

Module Server.

(** [request.params] of a tool call. *)
Record CallToolRequest := {
  tool_name : string;
  arguments : option (gmap string value)
}.

(** The answer to a tool call; [isError = false] stands for an answer
    without the [isError] property. *)
Record ToolResult := {
  tool_content : list ContentItem;
  isError : bool
}.

(** An answer of a tool handler, returned as it is. *)
Definition passed_on (r : Response) : ToolResult :=
  {| tool_content := content r; isError := false |}.

Definition flagged (t : string) : ToolResult :=
  {| tool_content := [ {| item_type := "text"; text := t |} ];
     isError := true |}.

Definition unknown_tool (name : string) : string :=
  "Unknown tool: " +:+ name +:+ "." +:+ LF +:+ LF
  +:+ "Available tools:" +:+ LF
  +:+ "- salesforce_manage_integrations" +:+ LF
  +:+ "- salesforce_quick_setup_integration" +:+ LF +:+ LF
  +:+ "Note: This is the enhanced version with integration capabilities. Use the original MCP for standard Salesforce operations.".

Section CallTool.
(** The [as] casts of the handler give the arguments their declared
    types; they are a parameter. *)
Context (as_ManageIntegrationsArgs : gmap string value -> ManageIntegrationsArgs).
Context (as_QuickSetupArgs : gmap string value -> QuickSetupArgs).

(** The handler registered for [CallToolRequestSchema]; [now] is the
    reading of the clock used by quick setup. *)
Definition callTool (env : gmap string string)
    (fetch : FetchRequest -> FetchResponse + exn) (now : N)
    (request : CallToolRequest) : prog ToolResult :=
  try_catch
    (args ← match arguments request with
            | Some args => Ret args
            | None => Throw (Error "Arguments are required")
            end;
     conn ← createSalesforceConnection env fetch;
     if String.eqb (tool_name request) "salesforce_manage_integrations" then
       let integrationArgs := args in
       if negb (truthy (get integrationArgs "operation")) then
         Throw (Error "operation is required for managing integrations")
       else
         result ← handleManageIntegrations
                    (as_ManageIntegrationsArgs integrationArgs);
         mret (passed_on result)
     else if String.eqb (tool_name request)
               "salesforce_quick_setup_integration" then
       let quickSetupArgs := args in
       if negb (truthy (get quickSetupArgs "type"))
          || negb (truthy (get quickSetupArgs "objectName"))
          || negb (truthy (get quickSetupArgs "config")) then
         Throw (Error "type, objectName, and config are required for quick setup integration")
       else
         result ← handleQuickSetupIntegration
                    (as_QuickSetupArgs quickSetupArgs) now;
         mret (passed_on result)
     else
       mret (flagged (unknown_tool (tool_name request))))
    (fun error => mret (flagged ("Error: " +:+ error_text error))).

End CallTool.

(** The request names a known tool and carries what the handler requires
    of its arguments before it dispatches. *)
Definition dispatchable (name : string) (args : gmap string value) : bool :=
  if String.eqb name "salesforce_manage_integrations" then
    truthy (get args "operation")
  else if String.eqb name "salesforce_quick_setup_integration" then
    truthy (get args "type") && truthy (get args "objectName")
    && truthy (get args "config")
  else false.

(** The tool handler a dispatchable request is passed to. *)
Definition dispatched
    (as_ManageIntegrationsArgs : gmap string value -> ManageIntegrationsArgs)
    (as_QuickSetupArgs : gmap string value -> QuickSetupArgs)
    (now : N) (name : string) (args : gmap string value) : prog Response :=
  if String.eqb name "salesforce_manage_integrations"
  then handleManageIntegrations (as_ManageIntegrationsArgs args)
  else handleQuickSetupIntegration (as_QuickSetupArgs args) now.

End Server.
Export Server.

(** ** The generated callout service: message preparation *)

Module Apex.

(** Apex's [s.replace(target, replacement)] for a non-empty [target]:
    every occurrence, found from left to right, is replaced.  [skip]
    counts the characters of a replaced occurrence still to pass over. *)
Fixpoint replace_from (skip : nat) (s target replacement : string) : string :=
  match s with
  | EmptyString => EmptyString
  | String c r =>
      match skip with
      | S k => replace_from k r target replacement
      | O =>
          if starts_with s target
          then replacement
               +:+ replace_from (String.length target - 1) r target replacement
          else String c (replace_from 0 r target replacement)
      end
  end.

Definition replace (s target replacement : string) : string :=
  replace_from 0 s target replacement.

(** One step of the loop of [prepareMessage]: a populated field is a name
    with its value, [None] for [null], [Some v] for [String.valueOf]. *)
Definition fill (message : string) (field : string * option string) : string :=
  match snd field with
  | Some fieldValue => replace message ("{" +:+ fst field +:+ "}") fieldValue
  | None => message
  end.

(** [prepareMessage(template, record)], with [record] given by the list
    of its populated fields in the order of [fieldMap.keySet()]. *)
Definition prepareMessage (template : string)
    (record : list (string * option string)) : string :=
  fold_left fill record template.

End Apex.
Export Apex.

(** ** Reading a run *)

Module Trace.

Definition rejected (ev : event) : bool :=
  match ev with Ev _ (inl _) => false | Ev _ (inr _) => true end.

(** The error of the last call of a run, if that call was rejected. *)
Definition last_error (tr : list event) : option exn :=
  match last tr with
  | Some (Ev _ (inr e)) => Some e
  | _ => None
  end.

Definition is_query (ev : event) : bool :=
  match ev with Ev (Query _) _ => true | _ => false end.

Definition is_metadata (ev : event) : bool :=
  match ev with
  | Ev (MetadataCreate _ _) _ | Ev (MetadataUpdate _ _) _ => true
  | _ => false
  end.

(** The metadata type and full name a deployment call creates. *)
Definition created (ev : event) : option (string * string) :=
  match ev with
  | Ev (MetadataCreate type metadata) _ =>
      Some (type, ToString (get metadata "fullName"))
  | _ => None
  end.

(** What provisioning the schema deploys, in order. *)
Definition provisioning_plan : list (string * string) :=
  ("CustomObject", "Integration_Config__c")
  :: map (fun f => ("CustomField", "Integration_Config__c." +:+ fd_name f))
       fields.

(** The trigger metadata sent by the trigger step of a run. *)
Definition deployed_triggers (tr : list event) : list (gmap string value) :=
  omap (fun ev => match ev with
                  | Ev (MetadataCreate type metadata) _
                  | Ev (MetadataUpdate type metadata) _ =>
                      if String.eqb type "ApexTrigger" then Some metadata
                      else None
                  | _ => None
                  end) tr.

(** The records a run deletes, by [Id]. *)
Definition deleted_ids (tr : list event) : list value :=
  omap (fun ev => match ev with
                  | Ev (SobjectDelete _ i) _ => Some i
                  | _ => None
                  end) tr.

Definition provisioned_fields : gset string :=
  list_to_set (map fd_name fields).

(** A configuration as [create] reads it differs from another only in
    properties that [update] never looks at. *)
Definition same_updatable (c1 c2 : IntegrationConfig) : Prop :=
  endpoint c1 = endpoint c2 /\ authConfig c1 = authConfig c2 /\
  messageTemplate c1 = messageTemplate c2 /\
  condition c1 = condition c2 /\ active c1 = active c2.

End Trace.
Export Trace.

Module MoreSamples.

(** The platform after [lead_hook] was created twice. *)
Definition org_with_two_hooks : Org :=
  Eval vm_compute in
    snd (fst (run org_handler (handleManageIntegrations (create_args lead_hook))
                org_with_lead_hook)).

(** [lead_hook] with everything that [update] does not read changed. *)
Definition lead_hook_retargeted : IntegrationConfig :=
  {| name := Some "renamed"; type := Some slack;
     endpoint := endpoint lead_hook; authType := Some bearer;
     authConfig := authConfig lead_hook; objectName := Some "Account";
     triggerEvents := Some [on_delete];
     messageTemplate := messageTemplate lead_hook;
     condition := condition lead_hook; active := active lead_hook |}.

Definition slack_without_url : QuickSetupArgs :=
  {| qs_type := slack_opportunity; qs_objectName := "Opportunity";
     qs_config := {| whatsappApiToken := None; phoneNumber := None;
                     slackWebhookUrl := None; slackChannel := None;
                     emailEndpoint := None; emailApiKey := None;
                     webhookUrl := None; webhookHeaders := None;
                     qs_messageTemplate := "Deal {Name}";
                     qs_condition := None |} |}.

Definition env_oauth : gmap string string :=
  list_to_map [("SALESFORCE_CONNECTION_TYPE", "OAuth_2.0_Client_Credentials");
               ("SALESFORCE_CLIENT_ID", "id");
               ("SALESFORCE_CLIENT_SECRET", "secret");
               ("SALESFORCE_INSTANCE_URL", "https://org.example.test")].

(** A token endpoint that grants a token for another instance. *)
Definition granting (request : FetchRequest) : FetchResponse + exn :=
  inl {| ok := true; statusText := "OK";
         json := inl (VObj [("access_token", VStr "00D");
                            ("instance_url", VStr "https://pod.example.test")]) |}.

Definition refusing (request : FetchRequest) : FetchResponse + exn :=
  inl {| ok := false; statusText := "Bad Request"; json := inl VNull |}.

End MoreSamples.
Export MoreSamples.

(** ** The lines of a text answer *)

Module SummaryText.

Definition line_break : ascii := ascii_of_nat 10.

(** The text holds no line break. *)
Fixpoint single_line (s : string) : bool :=
  match s with
  | EmptyString => true
  | String c r => negb (Ascii.eqb c line_break) && single_line r
  end.

(** [a] put in front of the first of the lines [ls]. *)
Definition glue (a : string) (ls : list string) : list string :=
  match ls with
  | l :: ls' => (a +:+ l) :: ls'
  | [] => [a]
  end.

(** [text.split('\n')] *)
Fixpoint split_lines (text : string) : list string :=
  match text with
  | EmptyString => [EmptyString]
  | String c r =>
      if Ascii.eqb c line_break then EmptyString :: split_lines r
      else glue (String c EmptyString) (split_lines r)
  end.

(** The steps that the lines of a text report, in the order of the lines. *)
Definition text_steps (text : string) : list Step :=
  omap line_step (split_lines text).

(** What the platform hands back for the summary, an assigned record id or
    the text of a rejection, holds no line break. *)
Definition plain_event (ev : event) : bool :=
  match ev with
  | Ev c r =>
      match r with
      | inr e => single_line (String_of e)
      | inl x =>
          match c in call X return X -> bool with
          | SobjectCreate _ _ => fun result => single_line (id result)
          | _ => fun _ => true
          end x
      end
  end.

(** A valid configuration whose object name runs over two lines. *)
Definition lead_hook_two_lines : IntegrationConfig :=
  {| name := Some "lead_hook_2"; type := Some webhook;
     endpoint := Some "https://example.test/hook"; authType := Some none;
     authConfig := VUndefined;
     objectName :=
       Some ("Lead" +:+ LF +:+ "✅ Created Integration_Config__c custom object");
     triggerEvents := Some [on_insert];
     messageTemplate := Some "Hi {Name}"; condition := None;
     active := Some true |}.

End SummaryText.
Export SummaryText.

(** ** A name that ends the literal of the lookup query *)

Module QuotedNames.

(** A name that closes the quote of the lookup and goes on with a
    condition of its own. *)
Definition closing_name : string := "x' OR Name != 'x".

(** Modelled from the spec: the remote platform of [Org], which besides
    evaluates the condition [Name = 'x' OR Name != 'x'] of a lookup: it
    holds of every stored record, whatever its name. *)
Definition evaluating_handler : handler Org := fun X c =>
  match c in call X return Org -> (X + exn) * Org with
  | Query soql => fun o =>
      if provisioned o
         && String.eqb soql
              "SELECT Id FROM Integration_Config__c WHERE Name = 'x' OR Name != 'x'"
      then (inl {| records := configs o |}, o)
      else org_handler _ (Query soql) o
  | c' => org_handler _ c'
  end.

Definition delete_args (n : string) : ManageIntegrationsArgs :=
  {| operation := op_delete; integrationName := Some n; config := None |}.

End QuotedNames.
Export QuotedNames.

(** ** Quick setup with the type as the server casts it *)

Module QuickSetupCast.

(** [args] as [index.ts] hands them over: [type] is any non-empty text,
    cast to the union of the four preset names without a test. *)
Record CastArgs := {
  cast_type : string;
  cast_objectName : string;
  cast_config : QuickSetupConfig
}.

(** The [case] label that the [switch] of [createQuickSetupConfig]
    selects, [None] for its [default] branch. *)
Definition case_of (type : string) : option QuickSetupType :=
  if String.eqb type "whatsapp_lead" then Some whatsapp_lead
  else if String.eqb type "slack_opportunity" then Some slack_opportunity
  else if String.eqb type "email_case" then Some email_case
  else if String.eqb type "webhook_custom" then Some webhook_custom
  else None.

Definition typed (args : CastArgs) (t : QuickSetupType) : QuickSetupArgs :=
  {| qs_type := t; qs_objectName := cast_objectName args;
     qs_config := cast_config args |}.

Definition unknown_type (type : string) : exn :=
  Error ("Unknown quick setup type: " +:+ type).

(** [createQuickSetupConfig] on cast arguments: the four cases as at type
    [QuickSetupArgs], and the [default] branch, which throws. *)
Definition createQuickSetupConfig_cast (args : CastArgs) (now : N)
  : IntegrationConfig + exn :=
  match case_of (cast_type args) with
  | Some t => inl (createQuickSetupConfig (typed args t) now)
  | None => inr (unknown_type (cast_type args))
  end.

Definition handleQuickSetupIntegration_cast (args : CastArgs) (now : N)
  : prog Response :=
  try_catch
    (match createQuickSetupConfig_cast args now with
     | inl integrationConfig =>
         (* Use the existing integration management logic *)
         handleManageIntegrations
           {| operation := op_create;
              integrationName := None;
              config := Some integrationConfig |}
     | inr error => Throw error
     end)
    (fun error => mret (quick_error_response error)).

End QuickSetupCast.
Export QuickSetupCast.

Module FurtherSamples.

(** A second integration, on cases. *)
Definition case_hook : IntegrationConfig :=
  {| name := Some "case_hook"; type := Some email;
     endpoint := Some "https://example.test/mail"; authType := Some api_key;
     authConfig := VObj [("apiKey", VStr "k")]; objectName := Some "Case";
     triggerEvents := Some [on_insert];
     messageTemplate := Some "Case {CaseNumber}"; condition := None;
     active := Some true |}.

(** A quick-setup request for a preset that does not exist. *)
Definition sms_request : CastArgs :=
  {| cast_type := "sms_lead"; cast_objectName := "Lead";
     cast_config := qs_config slack_without_url |}.

End FurtherSamples.
Export FurtherSamples.
(** * Properties *)

(** ** Running programs *)

Section Run.
Context {W : Type} (h : handler W).

Lemma run_bind {A B} (p : prog A) (f : A -> prog B) (w : W) :
  run h (bind p f) w =
  let '(r, w1, t1) := run h p w in
  match r with
  | inl a => let '(r2, w2, t2) := run h (f a) w1 in (r2, w2, (t1 ++ t2)%list)
  | inr e => (inr e, w1, t1)
  end.
Proof.
  revert w. induction p as [a|e|X c k IH]; intros w; cbn.
  - by destruct (run h (f a) w) as [[r2 w2] t2].
  - done.
  - destruct (h X c w) as [r w1]. rewrite IH.
    destruct (run h (k r) w1) as [[[a|e] w2] t1]; [|done].
    by destruct (run h (f a) w2) as [[r2 w3] t2].
Qed.

Lemma run_try_catch {A} (p : prog A) (f : exn -> prog A) (w : W) :
  run h (try_catch p f) w =
  let '(r, w1, t1) := run h p w in
  match r with
  | inl a => (inl a, w1, t1)
  | inr e => let '(r2, w2, t2) := run h (f e) w1 in (r2, w2, (t1 ++ t2)%list)
  end.
Proof.
  revert w. induction p as [a|e|X c k IH]; intros w; cbn.
  - done.
  - by destruct (run h (f e) w) as [[r2 w2] t2].
  - destruct (h X c w) as [r w1]. rewrite IH.
    destruct (run h (k r) w1) as [[[a|e] w2] t1]; [done|].
    by destruct (run h (f e) w2) as [[r2 w3] t2].
Qed.

(** A [catch] block that returns makes the whole [try] return. *)
Lemma run_caught {A} (p : prog A) (f : exn -> A) (w : W) :
  exists a w' tr, run h (try_catch p (fun e => Ret (f e))) w = (inl a, w', tr).
Proof.
  rewrite run_try_catch.
  destruct (run h p w) as [[[a|e] w1] t1]; cbn; eauto.
Qed.

(** A [try] around a program that returns is transparent. *)
Lemma run_try_returns {A} (p : prog A) (f : exn -> prog A) (w : W) a w' tr :
  run h p w = (inl a, w', tr) -> run h (try_catch p f) w = (inl a, w', tr).
Proof. intros Hp. by rewrite run_try_catch, Hp. Qed.

Lemma handleManageIntegrations_returns args (w : W) :
  exists resp w' tr,
    run h (handleManageIntegrations args) w = (inl resp, w', tr).
Proof. apply run_caught. Qed.

End Run.

(** Case analysis of a run against an arbitrary platform: unfold the
    program up to its next call, then split on the outcome of that call. *)
Ltac unfold_prog :=
  cbn [run bind try_catch await mbind mret prog_bind prog_ret deref
       createIntegration handleManageIntegrations
       createIntegrationConfigObject create_fields fields
       createTrigger updateTrigger createApexClass
       operation config integrationName create_args
       name type endpoint authType authConfig objectName triggerEvents
       messageTemplate condition active].

Ltac ask h :=
  match goal with
  | |- context [h ?X ?c ?w] => destruct (h X c w) as [[?|?] ?] eqn:?
  end.

Ltac ask_duplicate :=
  match goal with
  | |- context [instanceof_Error ?e && includes ?m ?n] =>
      destruct (instanceof_Error e && includes m n) eqn:?
  end.

Ltac explore h leaf :=
  unfold_prog;
  tryif ask h then explore h leaf
  else tryif ask_duplicate then explore h leaf
  else solve [leaf].

Ltac eval_step_errors :=
  repeat match goal with
         | |- context [step_error ?s ?tr] =>
             let v := eval vm_compute in (step_error s tr) in
             change (step_error s tr) with v
         end.

Ltac find_line :=
  unfold push; cbn [In app]; repeat (first [left; reflexivity | right]).

Lemma valid_create_events c :
  valid_create c -> exists evs, triggerEvents c = Some evs.
Proof. intros (_ & _ & _ & _ & _ & [evs H] & _). eauto. Qed.

Lemma lead_hook_valid : valid_create lead_hook.
Proof. repeat split; eauto. Qed.

(** ** The create operation *)

(** *** The lines of the summary text *)

Lemma string_app_assoc (a b c : string) : (a +:+ b) +:+ c = a +:+ b +:+ c.
Proof.
  induction a as [|x a IH]; [done|].
  change (String x ((a +:+ b) +:+ c) = String x (a +:+ b +:+ c)).
  by rewrite IH.
Qed.

Lemma string_app_empty (a : string) : a +:+ "" = a.
Proof.
  induction a as [|x a IH]; [done|].
  change (String x (a +:+ "") = String x a). by rewrite IH.
Qed.

Lemma single_line_app (a b : string) :
  single_line (a +:+ b) = single_line a && single_line b.
Proof.
  induction a as [|x a IH]; [done|].
  change (single_line (String x (a +:+ b))
          = single_line (String x a) && single_line b).
  cbn [single_line]. by rewrite IH, andb_assoc.
Qed.

Lemma split_lines_cons (s : string) :
  exists l ls, split_lines s = l :: ls.
Proof.
  induction s as [|x s (l & ls & IH)]; cbn [split_lines]; [eauto|].
  destruct (Ascii.eqb x line_break); [eauto|].
  rewrite IH. cbn [glue]. eauto.
Qed.

(** A text without line break in front of another one joins its first
    line. *)
Lemma split_lines_app (a r : string) :
  single_line a = true ->
  split_lines (a +:+ r) = glue a (split_lines r).
Proof.
  induction a as [|x a IH]; intros Ha.
  - change (EmptyString +:+ r) with r.
    by destruct (split_lines_cons r) as (l & ls & ->).
  - change (String x a +:+ r) with (String x (a +:+ r)).
    cbn [single_line] in Ha. apply andb_true_iff in Ha as [Hx Ha].
    cbn [split_lines]. destruct (Ascii.eqb x line_break); [done|].
    rewrite (IH Ha).
    by destruct (split_lines_cons r) as (l & ls & ->).
Qed.

Lemma split_lines_break (r : string) :
  split_lines (LF +:+ r) = EmptyString :: split_lines r.
Proof. reflexivity. Qed.

(** The lines joined by [join('\n')] are split again at the line breaks,
    provided none of them holds one; no line at all joins to one empty
    line. *)
Lemma split_lines_concat (steps : list string) (r : string) :
  forallb single_line steps = true ->
  split_lines (String.concat LF steps +:+ LF +:+ r)
  = ((match steps with [] => [EmptyString] | _ => steps end)
       ++ split_lines r)%list.
Proof.
  induction steps as [|s steps IH]; intros Hs; [reflexivity|].
  cbn [forallb] in Hs. apply andb_true_iff in Hs as [Hs Hrest].
  destruct steps as [|s' steps].
  - cbn [String.concat]. rewrite (split_lines_app _ _ Hs), split_lines_break.
    cbn [glue app]. by rewrite string_app_empty.
  - change (String.concat LF (s :: s' :: steps))
      with (s +:+ LF +:+ String.concat LF (s' :: steps)).
    rewrite !string_app_assoc.
    rewrite (split_lines_app _ _ Hs), split_lines_break, (IH Hrest).
    cbn [glue app]. by rewrite string_app_empty.
Qed.

Lemma single_line_events (sep : string) (evs : list TriggerEvent) :
  single_line sep = true ->
  single_line (String.concat sep (map TriggerEvent_str evs)) = true.
Proof.
  intros Hsep. induction evs as [|e evs IH]; [done|].
  destruct evs as [|e' evs].
  - by destruct e.
  - change (String.concat sep (map TriggerEvent_str (e :: e' :: evs)))
      with (TriggerEvent_str e +:+ sep
            +:+ String.concat sep (map TriggerEvent_str (e' :: evs))).
    rewrite !single_line_app, Hsep, IH. by destruct e.
Qed.

Lemma single_line_type (t : option IntegrationType) :
  single_line (ToString (enum_value IntegrationType_str t)) = true.
Proof. by destruct t as [[]|]. Qed.

Lemma omap_line_step_app (ls ls' : list string) :
  omap line_step (ls ++ ls')%list
  = (omap line_step ls ++ omap line_step ls')%list.
Proof. apply omap_app. Qed.

Ltac single_line_side :=
  first [ assumption | reflexivity | apply single_line_type
        | apply single_line_events; reflexivity ].

Ltac eval_line_steps :=
  repeat match goal with
         | |- context [line_step ?l] =>
             lazymatch l with
             | EmptyString => idtac
             | String _ _ => idtac
             | _ +:+ _ => idtac
             end;
             let v := eval vm_compute in (line_step l) in
             change (line_step l) with v
         end.

(** The lines of the summary text are a heading, the step lines, and a
    closing block; neither heading nor closing block reads as a step
    line, so the steps the text reports are those of its step lines. *)
Lemma text_steps_create_summary (c : IntegrationConfig)
    (evs : list TriggerEvent) (steps : list string) :
  single_line (show (name c)) = true ->
  single_line (show (objectName c)) = true ->
  forallb single_line steps = true ->
  text_steps (create_summary c evs steps) = omap line_step steps.
Proof.
  intros Hn Ho Hs. unfold text_steps, create_summary.
  destruct (truthy (bool_value (active c)));
  repeat first
    [ rewrite split_lines_break
    | rewrite (split_lines_concat _ _ Hs)
    | rewrite split_lines_app by single_line_side ];
  change (split_lines " records.") with [" records."];
  cbn [glue];
  cbn [omap list_omap]; eval_line_steps; cbv iota;
  rewrite omap_line_step_app;
  cbn [omap list_omap]; eval_line_steps; cbv iota.
  all: rewrite app_nil_r; by destruct steps.
Qed.

Ltac split_plain H :=
  cbn [forallb plain_event] in H;
  repeat match type of H with
         | _ && _ = true =>
             let H1 := fresh "Hplain" in apply andb_true_iff in H as [H1 H]
         end.

Ltac single_lines :=
  unfold push; cbn [app forallb];
  rewrite ?single_line_app;
  repeat (apply andb_true_iff; split);
  first [assumption | reflexivity].

Lemma lead_hook_two_lines_valid : valid_create lead_hook_two_lines.
Proof. repeat split; eauto. Qed.

(** C1, as stated, fails: the object name of a valid create input is put
    into the text as it is.  With an object name of two lines, on a
    platform whose schema is provisioned, the run attempts the record,
    trigger and class steps and not the schema step, while the returned
    text holds a line reporting the schema step, after the line of the
    trigger step. *)
Lemma summary_text_reports_unattempted_step :
  valid_create lead_hook_two_lines /\
  let '(res, _, tr) :=
    run org_handler (createIntegration (Some lead_hook_two_lines))
        org_with_lead_hook in
  attempted tr = [RecordStep; TriggerStep; ClassStep] /\
  exists t,
    res = inl (text_response t) /\
    text_steps t = [RecordStep; TriggerStep; SchemaStep; ClassStep;
                    SchemaStep; SchemaStep] /\
    text_steps t <> attempted tr.
Proof.
  split; [exact lead_hook_two_lines_valid|].
  vm_compute run. split; [vm_compute; reflexivity|].
  eexists. split; [reflexivity|].
  split; [vm_compute; reflexivity|]. vm_compute. discriminate.
Qed.

(** C1, amended: for a valid create input whose name and object name hold
    no line break, on a platform whose record id and rejection texts hold
    none either, the lines of the text that [createIntegration] returns
    report exactly the steps attempted in the run, in the order schema,
    record, trigger, class: the record, trigger and class steps always,
    preceded by the schema step exactly when the probe failed and the
    schema was provisioned.  The operation throws instead of returning a
    text only when the schema or the record step failed. *)
Theorem summary_text_enumerates_steps {W} (h : handler W) (w : W)
    (c : IntegrationConfig) :
  valid_create c ->
  single_line (show (name c)) = true ->
  single_line (show (objectName c)) = true ->
  let '(res, _, tr) := run h (createIntegration (Some c)) w in
  forallb plain_event tr = true ->
  match res with
  | inl resp =>
      exists t,
        resp = text_response t /\
        text_steps t = attempted tr /\
        (attempted tr = [RecordStep; TriggerStep; ClassStep] \/
         attempted tr = [SchemaStep; RecordStep; TriggerStep; ClassStep])
  | inr e =>
      step_error SchemaStep tr = Some e \/ step_error RecordStep tr = Some e
  end.
Proof.
  intros Hv Hn Ho. destruct (valid_create_events c Hv) as [evs Hevs].
  destruct c as [n t e a ac o te m cd act]; cbn in Hevs; subst te.
  cbn [name objectName] in Hn, Ho.
  unfold createIntegration.
  explore h ltac:(
    intros Hplain;
    first [ eexists; split; [reflexivity|]; split;
            [ split_plain Hplain;
              rewrite text_steps_create_summary;
              [vm_compute; reflexivity | assumption | assumption | single_lines]
            | vm_compute; auto ]
          | vm_compute; auto ]).
Qed.

Lemma summary_text_enumerates_steps_witness :
  valid_create lead_hook /\
  single_line (show (name lead_hook)) = true /\
  single_line (show (objectName lead_hook)) = true /\
  let '(res, _, tr) := run org_handler (createIntegration (Some lead_hook))
                         empty_org in
  forallb plain_event tr = true /\
  match res with
  | inl resp =>
      exists t,
        resp = text_response t /\
        text_steps t = attempted tr /\
        (attempted tr = [RecordStep; TriggerStep; ClassStep] \/
         attempted tr = [SchemaStep; RecordStep; TriggerStep; ClassStep])
  | inr e =>
      step_error SchemaStep tr = Some e \/ step_error RecordStep tr = Some e
  end.
Proof.
  split; [exact lead_hook_valid|]. split; [reflexivity|].
  split; [reflexivity|].
  assert (forallb plain_event
            (snd (run org_handler (createIntegration (Some lead_hook))
                    empty_org)) = true) as Hplain
    by (vm_compute; reflexivity).
  pose proof (summary_text_enumerates_steps org_handler empty_org lead_hook
                lead_hook_valid eq_refl eq_refl) as H.
  destruct (run org_handler (createIntegration (Some lead_hook)) empty_org)
    as [[res o] tr].
  cbn [snd] in Hplain. split; [exact Hplain|exact (H Hplain)].
Defined.

(** C2, as stated, fails: on a fresh platform the schema step succeeds,
    the insert of the record is rejected, and the caller gets the error
    response, not a summary with a warning line. *)
Lemma record_failure_is_an_error_response :
  let '(res, _, tr) :=
    run (with_faults org_handler) (handleManageIntegrations (create_args lead_hook))
        (empty_org, insert_rejected) in
  failed_after_success tr = true /\
  res = inl (error_response storage_error) /\
  forall c evs steps, res <> inl (text_response (create_summary c evs steps)).
Proof.
  vm_compute run. split; [vm_compute; reflexivity|]. split; [reflexivity|].
  intros c evs steps H. inversion H.
Qed.

(** C2, amended: a failure of the schema step or of the record step is
    returned as the error response; once the record is stored, a failure
    of the trigger step (deployment and fallback update both rejected) or
    of the class step becomes a warning line of the success summary, a
    class rejected with DUPLICATE_VALUE being reported as already
    existing. *)
Theorem create_failure_policy {W} (h : handler W) (w : W)
    (c : IntegrationConfig) :
  valid_create c ->
  let '(res, _, tr) := run h (handleManageIntegrations (create_args c)) w in
  match step_error SchemaStep tr, step_error RecordStep tr with
  | Some e, _ | None, Some e => res = inl (error_response e)
  | None, None =>
      exists evs steps,
        res = inl (text_response (create_summary c evs steps)) /\
        (forall e, step_error TriggerStep tr = Some e ->
                   In (trigger_warning e) steps) /\
        (forall e, step_error ClassStep tr = Some e ->
                   if duplicate_value e
                   then In "✅ Utility class already exists: IntegrationCalloutService" steps
                   else In (class_warning e) steps)
  end.
Proof.
  intros Hv. destruct (valid_create_events c Hv) as [evs Hevs].
  destruct c as [n t e a ac o te m cd act]; cbn in Hevs; subst te.
  unfold handleManageIntegrations, createIntegration.
  explore h ltac:(
    eval_step_errors; cbv iota beta;
    first [ reflexivity
          | eexists _, _; split; [reflexivity|];
            split; intros ? [= <-]; unfold duplicate_value;
            repeat match goal with H : _ && _ = _ |- _ => rewrite H end;
            find_line ]).
Qed.

Lemma create_failure_policy_witness :
  valid_create lead_hook /\
  let '(res, _, tr) :=
    run (with_faults org_handler) (handleManageIntegrations (create_args lead_hook))
        (org_with_lead_hook, [None; None; Some storage_error; Some storage_error]) in
  match step_error SchemaStep tr, step_error RecordStep tr with
  | Some e, _ | None, Some e => res = inl (error_response e)
  | None, None =>
      exists evs steps,
        res = inl (text_response (create_summary lead_hook evs steps)) /\
        (forall e, step_error TriggerStep tr = Some e ->
                   In (trigger_warning e) steps) /\
        (forall e, step_error ClassStep tr = Some e ->
                   if duplicate_value e
                   then In "✅ Utility class already exists: IntegrationCalloutService" steps
                   else In (class_warning e) steps)
  end.
Proof.
  split; [exact lead_hook_valid|].
  exact (create_failure_policy (with_faults org_handler)
           (org_with_lead_hook, [None; None; Some storage_error; Some storage_error])
           lead_hook lead_hook_valid).
Defined.

(** ** Updates of stored configurations *)

(** Each guard of [updateIntegration] decides one key of [updateData]. *)
Ltac case_guards :=
  unfold updateData;
  repeat match goal with
         | |- context [if ?b then _ else _] => destruct b
         | |- context [match ?o with Some _ => _ | None => _ end] => destruct o
         end;
  by simplify_map_eq.

Lemma updateData_no_name c : updateData c !! "Name" = None.
Proof. case_guards. Qed.

Lemma updateData_endpoint c :
  updateData c !! "Endpoint__c" =
  if truthy (str_value (endpoint c)) then Some (str_value (endpoint c)) else None.
Proof. case_guards. Qed.

Lemma updateData_authConfig c :
  updateData c !! "Auth_Config__c" =
  if truthy (authConfig c)
  then Some (str_value (JSON_stringify (authConfig c))) else None.
Proof. case_guards. Qed.

Lemma updateData_messageTemplate c :
  updateData c !! "Message_Template__c" =
  if truthy (str_value (messageTemplate c))
  then Some (str_value (messageTemplate c)) else None.
Proof. case_guards. Qed.

Lemma updateData_condition c :
  updateData c !! "Condition__c" = VStr <$> condition c.
Proof. case_guards. Qed.

Lemma updateData_active c :
  updateData c !! "Active__c" = VBool <$> active c.
Proof. case_guards. Qed.

Lemma update_payload_name n data :
  data !! "Name" = None ->
  get (update_payload n data) "Name" = str_value n.
Proof.
  intros H. unfold get, update_payload.
  by rewrite lookup_union_r, lookup_singleton_eq.
Qed.

Lemma update_payload_lookup n data f :
  f <> "Name" -> update_payload n data !! f = data !! f.
Proof.
  intros Hf. unfold update_payload.
  destruct (data !! f) as [v|] eqn:E.
  - by apply lookup_union_Some_l.
  - rewrite lookup_union_r by done. by apply lookup_singleton_ne.
Qed.

Lemma apply_update_frame payload record f :
  payload !! f = None -> same_field f record (apply_update payload record).
Proof.
  intros H. unfold same_field, apply_update.
  destruct (named _ record); [|done]. by apply lookup_union_r.
Qed.

Lemma apply_update_written payload record f v :
  payload !! f = Some v ->
  named (get payload "Name") record = true ->
  apply_update payload record !! f = Some v.
Proof.
  intros H Hn. unfold apply_update. rewrite Hn. by apply lookup_union_Some_l.
Qed.

Lemma apply_update_named payload n record :
  named (VStr n) (apply_update payload record) = true ->
  get payload "Name" = VStr n ->
  named (get payload "Name") record = true.
Proof.
  unfold apply_update. intros H Hp.
  destruct (named (get payload "Name") record) eqn:E; [done|].
  by rewrite Hp in E; rewrite E in H.
Qed.

Section TargetedUpdate.
Context {W : Type} (h : handler W) (store : W -> list (gmap string value)).
Hypothesis Hupdate : targeted_update h store.

(** An update leaves alone every field that its payload does not carry. *)
Lemma update_frame payload w f :
  payload !! f = None ->
  Forall2 (same_field f) (store w)
    (store (snd (h _ (SobjectUpdate "Integration_Config__c" payload) w))).
Proof.
  intros Hf. specialize (Hupdate payload w).
  destruct (h _ _ w) as [[r|e] w']; cbn; rewrite Hupdate.
  - apply Forall2_fmap_r, Forall_Forall2_diag, Forall_forall.
    intros record _. by apply apply_update_frame.
  - apply Forall_Forall2_diag, Forall_forall. by intros record _.
Qed.

(** An accepted update writes every field of its payload into the
    records of the given name. *)
Lemma update_written payload w n f v r w' :
  h _ (SobjectUpdate "Integration_Config__c" payload) w = (inl r, w') ->
  get payload "Name" = VStr n ->
  payload !! f = Some v ->
  Forall (fun record => named (VStr n) record = true -> record !! f = Some v)
    (store w').
Proof.
  intros Hh Hn Hf. specialize (Hupdate payload w). rewrite Hh in Hupdate.
  rewrite Hupdate. apply Forall_fmap, Forall_forall. intros record _ Hrec.
  cbn. apply apply_update_written; [done|].
  by apply (apply_update_named payload n).
Qed.

(** C3: an update whose partial configuration sets only [active] sends
    a payload without [Endpoint__c], [Message_Template__c] and
    [Auth_Config__c], and a platform that applies updates field by field
    leaves these three fields of every stored record, the target
    included, as they were. *)
Theorem update_active_only_frame (w : W) (n : option string) (b : bool) :
  let args := {| operation := op_update; integrationName := n;
                 config := Some (only_active b) |} in
  let '(_, w', tr) := run h (handleManageIntegrations args) w in
  (exists payload r,
      tr = [Ev (SobjectUpdate "Integration_Config__c" payload) r] /\
      payload !! "Active__c" = Some (VBool b) /\
      payload !! "Endpoint__c" = None /\
      payload !! "Message_Template__c" = None /\
      payload !! "Auth_Config__c" = None) /\
  Forall2 (same_field "Endpoint__c") (store w) (store w') /\
  Forall2 (same_field "Message_Template__c") (store w) (store w') /\
  Forall2 (same_field "Auth_Config__c") (store w) (store w').
Proof.
  set (payload := update_payload n (updateData (only_active b))).
  assert (Hb : payload !! "Active__c" = Some (VBool b)).
  { unfold payload. by rewrite update_payload_lookup, updateData_active. }
  assert (He : payload !! "Endpoint__c" = None).
  { unfold payload. by rewrite update_payload_lookup, updateData_endpoint. }
  assert (Hm : payload !! "Message_Template__c" = None).
  { unfold payload.
    by rewrite update_payload_lookup, updateData_messageTemplate. }
  assert (Ha : payload !! "Auth_Config__c" = None).
  { unfold payload. by rewrite update_payload_lookup, updateData_authConfig. }
  pose proof (update_frame payload w _ He) as Fe.
  pose proof (update_frame payload w _ Hm) as Fm.
  pose proof (update_frame payload w _ Ha) as Fa.
  cbn [handleManageIntegrations updateIntegration operation config
       integrationName deref run bind try_catch await mbind mret
       prog_bind prog_ret].
  fold payload.
  destruct (h _ (SobjectUpdate _ payload) w) as [[r|e] w']; cbn in *;
    (split; [eexists _, _; split; [reflexivity|]; done|done]).
Qed.

(** C9: a falsy [endpoint], [authConfig] or [messageTemplate] (the empty
    string, [null], [undefined]) is left out of the payload of an update,
    without any error or warning, and the stored field stays as it was,
    while [condition: ""] and [active: false], which are compared with
    [undefined], are part of the payload and, once the remote accepts the
    update, are written to the records of that name. *)
Theorem falsy_fields_skipped (w : W) (n : string) (c : IntegrationConfig) :
  let payload := update_payload (Some n) (updateData c) in
  let '(res, w', tr) := run h (updateIntegration (Some n) (Some c)) w in
  (exists r, tr = [Ev (SobjectUpdate "Integration_Config__c" payload) r]) /\
  (returned res = true ->
     res = inl (text_response ("✅ Integration " +:+ dq +:+ n +:+ dq
                               +:+ " updated successfully!"))) /\
  (truthy (str_value (endpoint c)) = false ->
     payload !! "Endpoint__c" = None /\
     Forall2 (same_field "Endpoint__c") (store w) (store w')) /\
  (truthy (authConfig c) = false ->
     payload !! "Auth_Config__c" = None /\
     Forall2 (same_field "Auth_Config__c") (store w) (store w')) /\
  (truthy (str_value (messageTemplate c)) = false ->
     payload !! "Message_Template__c" = None /\
     Forall2 (same_field "Message_Template__c") (store w) (store w')) /\
  (condition c = Some "" ->
     payload !! "Condition__c" = Some (VStr "") /\
     (returned res = true ->
      Forall (fun record => named (VStr n) record = true ->
                            record !! "Condition__c" = Some (VStr ""))
        (store w'))) /\
  (active c = Some false ->
     payload !! "Active__c" = Some (VBool false) /\
     (returned res = true ->
      Forall (fun record => named (VStr n) record = true ->
                            record !! "Active__c" = Some (VBool false))
        (store w'))).
Proof.
  intros payload.
  assert (Hname : get payload "Name" = VStr n).
  { unfold payload. by rewrite update_payload_name by apply updateData_no_name. }
  assert (He : truthy (str_value (endpoint c)) = false ->
               payload !! "Endpoint__c" = None).
  { intros H. unfold payload.
    by rewrite update_payload_lookup, updateData_endpoint, H. }
  assert (Ha : truthy (authConfig c) = false ->
               payload !! "Auth_Config__c" = None).
  { intros H. unfold payload.
    by rewrite update_payload_lookup, updateData_authConfig, H. }
  assert (Hm : truthy (str_value (messageTemplate c)) = false ->
               payload !! "Message_Template__c" = None).
  { intros H. unfold payload.
    by rewrite update_payload_lookup, updateData_messageTemplate, H. }
  assert (Hc : condition c = Some "" ->
               payload !! "Condition__c" = Some (VStr "")).
  { intros H. unfold payload.
    by rewrite update_payload_lookup, updateData_condition, H. }
  assert (Hact : active c = Some false ->
                 payload !! "Active__c" = Some (VBool false)).
  { intros H. unfold payload.
    by rewrite update_payload_lookup, updateData_active, H. }
  pose proof (fun f => update_frame payload w f) as Hframe.
  pose proof (fun f v r w' => update_written payload w n f v r w') as Hwr.
  cbn [updateIntegration deref run bind try_catch await mbind mret
       prog_bind prog_ret].
  fold payload.
  destruct (h _ (SobjectUpdate _ payload) w) as [[r|e] w'] eqn:Hh; cbn in *.
  - split; [eauto|]. split; [done|]. repeat split; eauto; intros _; eauto.
  - split; [eauto|]. split; [by intros [=]|].
    repeat split; eauto; by intros [=].
Qed.

End TargetedUpdate.

Lemma org_targeted_update : targeted_update org_handler configs.
Proof. intros payload o. cbn. by destruct (provisioned o). Qed.

Lemma update_active_only_frame_witness :
  targeted_update org_handler configs /\
  let args := {| operation := op_update; integrationName := Some "lead_hook";
                 config := Some (only_active false) |} in
  let '(_, w', tr) := run org_handler (handleManageIntegrations args)
                        org_with_lead_hook in
  (exists payload r,
      tr = [Ev (SobjectUpdate "Integration_Config__c" payload) r] /\
      payload !! "Active__c" = Some (VBool false) /\
      payload !! "Endpoint__c" = None /\
      payload !! "Message_Template__c" = None /\
      payload !! "Auth_Config__c" = None) /\
  Forall2 (same_field "Endpoint__c") (configs org_with_lead_hook) (configs w') /\
  Forall2 (same_field "Message_Template__c") (configs org_with_lead_hook) (configs w') /\
  Forall2 (same_field "Auth_Config__c") (configs org_with_lead_hook) (configs w').
Proof.
  split; [exact org_targeted_update|].
  exact (update_active_only_frame org_handler configs org_targeted_update
           org_with_lead_hook (Some "lead_hook") false).
Defined.

Lemma falsy_fields_skipped_witness :
  targeted_update org_handler configs /\
  let payload := update_payload (Some "lead_hook") (updateData blanking) in
  let '(res, w', tr) :=
    run org_handler (updateIntegration (Some "lead_hook") (Some blanking))
        org_with_lead_hook in
  (payload !! "Endpoint__c" = None /\
   Forall2 (same_field "Endpoint__c") (configs org_with_lead_hook) (configs w')) /\
  (payload !! "Auth_Config__c" = None /\
   Forall2 (same_field "Auth_Config__c") (configs org_with_lead_hook) (configs w')) /\
  (payload !! "Message_Template__c" = None /\
   Forall2 (same_field "Message_Template__c") (configs org_with_lead_hook) (configs w')) /\
  payload !! "Condition__c" = Some (VStr "") /\
  payload !! "Active__c" = Some (VBool false).
Proof.
  split; [exact org_targeted_update|].
  pose proof (falsy_fields_skipped org_handler configs org_targeted_update
                org_with_lead_hook "lead_hook" blanking) as H.
  cbv zeta in H |- *.
  destruct (run org_handler _ org_with_lead_hook) as [[res w'] tr].
  destruct H as (_ & _ & He & Ha & Hm & Hc & Hact).
  split; [exact (He eq_refl)|]. split; [exact (Ha eq_refl)|].
  split; [exact (Hm eq_refl)|].
  split; [exact (proj1 (Hc eq_refl))|exact (proj1 (Hact eq_refl))].
Defined.

(** The hypotheses of C9 hold of the sample, and the run applies the two
    fields that are compared with [undefined]. *)
Example blanking_applies :
  truthy (str_value (endpoint blanking)) = false /\
  truthy (authConfig blanking) = false /\
  truthy (str_value (messageTemplate blanking)) = false /\
  let o := snd (fst (run org_handler
                       (updateIntegration (Some "lead_hook") (Some blanking))
                       org_with_lead_hook)) in
  map (fun r => (get r "Endpoint__c", get r "Condition__c", get r "Active__c"))
    (configs o)
  = [(VStr "https://example.test/hook", VStr "", VBool false)].
Proof. by vm_compute. Qed.

(** An empty object is truthy: [authConfig: {}] is serialised and sent. *)
Example empty_object_is_sent n :
  updateData {| name := None; type := None; endpoint := None; authType := None;
                authConfig := VObj []; objectName := None; triggerEvents := None;
                messageTemplate := None; condition := None; active := None |}
    !! "Auth_Config__c" = Some (VStr "{}") /\
  update_payload n ∅ !! "Auth_Config__c" = None.
Proof. by vm_compute. Qed.

(** C8: update, activate and deactivate issue the field update as their
    only remote call, without looking the name up first; whenever the
    remote does not reject that call, whether or not a configuration of
    that name exists, the answer is the success message. *)
Theorem update_without_lookup {W} (h : handler W) (w : W)
    (args : ManageIntegrationsArgs) payload r w' :
  written_payload args = Some payload ->
  h _ (SobjectUpdate "Integration_Config__c" payload) w = (inl r, w') ->
  run h (handleManageIntegrations args) w =
    (inl (text_response (success_text args)), w',
     [Ev (SobjectUpdate "Integration_Config__c" payload) (inl r)]) /\
  text_response (success_text args)
    <> error_response (not_found (integrationName args)).
Proof.
  destruct args as [op n c]. unfold written_payload, success_text. cbn.
  intros Hp Hh. split.
  - destruct op; try done; [destruct c as [c|]; [|done]|..];
      injection Hp as <-;
      cbn [handleManageIntegrations updateIntegration activateIntegration
           operation config integrationName deref run bind try_catch await
           mbind mret prog_bind prog_ret];
      by rewrite Hh.
  - destruct op; intros [=].
Qed.

Lemma update_without_lookup_witness :
  existsb (named (VStr "ghost")) (configs org_with_lead_hook) = false /\
  run org_handler
      (handleManageIntegrations
         {| operation := op_deactivate; integrationName := Some "ghost";
            config := None |})
      org_with_lead_hook =
    (inl (text_response
            (success_text {| operation := op_deactivate;
                             integrationName := Some "ghost"; config := None |})),
     org_with_lead_hook,
     [Ev (SobjectUpdate "Integration_Config__c"
            (update_payload (Some "ghost") {["Active__c" := VBool false]}))
         (inl {| id := "" |})]).
Proof.
  split; [vm_compute; reflexivity|].
  refine (proj1 (update_without_lookup org_handler org_with_lead_hook
                   {| operation := op_deactivate; integrationName := Some "ghost";
                      config := None |}
                   _ {| id := "" |} org_with_lead_hook eq_refl _)).
  vm_compute; reflexivity.
Defined.

(** ** Delete and list *)

(** When the lookup by name finds no record, [deleteIntegration] throws
    the not-found error, the caller receives it as the error text, and the
    lookup query is the only call made: nothing is sent that changes the
    configuration store. *)
Lemma delete_unknown_name {W} (h : handler W) (w : W)
    (args : ManageIntegrationsArgs) w' :
  operation args = op_delete ->
  h _ (Query (delete_query (integrationName args))) w
    = (inl {| records := [] |}, w') ->
  let lookup := Ev (Query (delete_query (integrationName args)))
                   (inl {| records := [] |}) in
  run h (deleteIntegration (integrationName args)) w
    = (inr (not_found (integrationName args)), w', [lookup]) /\
  run h (handleManageIntegrations args) w
    = (inl (error_response (not_found (integrationName args))), w', [lookup]) /\
  existsb mutates [lookup] = false.
Proof.
  destruct args as [op n c]. cbn. intros -> Hh.
  cbn [handleManageIntegrations deleteIntegration operation integrationName
       run bind try_catch await mbind mret prog_bind prog_ret].
  by rewrite Hh.
Qed.

Lemma delete_unknown_name_witness :
  let args := {| operation := op_delete; integrationName := Some "ghost";
                 config := None |} in
  let lookup := Ev (Query (delete_query (Some "ghost")))
                   (inl {| records := [] |}) in
  run org_handler (deleteIntegration (Some "ghost")) org_with_lead_hook
    = (inr (not_found (Some "ghost")), org_with_lead_hook, [lookup]) /\
  run org_handler (handleManageIntegrations args) org_with_lead_hook
    = (inl (error_response (not_found (Some "ghost"))), org_with_lead_hook,
       [lookup]) /\
  existsb mutates [lookup] = false.
Proof.
  exact (delete_unknown_name org_handler org_with_lead_hook
           {| operation := op_delete; integrationName := Some "ghost";
              config := None |}
           org_with_lead_hook eq_refl ltac:(vm_compute; reflexivity)).
Defined.

(** C5: when the list query finds no record, or is rejected (as it is
    while the schema is not provisioned), [list] answers with an
    empty-state message; the answer is never the error response. *)
Theorem list_empty_state {W} (h : handler W) (w : W)
    (args : ManageIntegrationsArgs) r w' :
  operation args = op_list ->
  h _ (Query list_query) w = (r, w') ->
  match r with inl q => records q = [] | inr _ => True end ->
  let message := match r with
                 | inl _ => no_integrations
                 | inr _ => no_integrations_object
                 end in
  run h (handleManageIntegrations args) w
    = (inl (text_response message), w', [Ev (Query list_query) r]) /\
  forall e, text_response message <> error_response e.
Proof.
  destruct args as [op n c]. cbn. intros -> Hh Hr.
  cbn [handleManageIntegrations listIntegrations operation
       run bind try_catch await mbind mret prog_bind prog_ret].
  rewrite Hh. destruct r as [[recs]|e]; cbn in *.
  - subst recs. cbn. split; [done|]. by intros e [=].
  - split; [done|]. by intros e' [=].
Qed.

Lemma list_empty_state_witness :
  let args := {| operation := op_list; integrationName := None;
                 config := None |} in
  provisioned empty_org = false /\
  run org_handler (handleManageIntegrations args) empty_org
    = (inl (text_response no_integrations_object), empty_org,
       [Ev (Query list_query) (inr missing_object)]) /\
  forall e, text_response no_integrations_object <> error_response e.
Proof.
  split; [reflexivity|].
  exact (list_empty_state org_handler empty_org
           {| operation := op_list; integrationName := None; config := None |}
           (inr missing_object) empty_org eq_refl eq_refl I).
Defined.

(** ** Quick setup *)

Lemma quick_setup_forwards {W} (h : handler W) (w : W)
    (args : QuickSetupArgs) (now : N) :
  run h (handleQuickSetupIntegration args now) w
  = run h (handleManageIntegrations
             (create_args (createQuickSetupConfig args now))) w.
Proof.
  destruct (handleManageIntegrations_returns h
              (create_args (createQuickSetupConfig args now)) w)
    as (resp & w' & tr & Hrun).
  rewrite Hrun. by apply run_try_returns.
Qed.

(** C6: the configuration that quick setup forwards to create has
    [triggerEvents = [insert, update]] for [slack_opportunity] and
    [triggerEvents = [insert]] for the three other presets. *)
Theorem quick_setup_trigger_events {W} (h : handler W) (w : W)
    (args : QuickSetupArgs) (now : N) :
  let forwarded := createQuickSetupConfig args now in
  run h (handleQuickSetupIntegration args now) w
    = run h (handleManageIntegrations (create_args forwarded)) w /\
  triggerEvents forwarded =
    Some match qs_type args with
         | slack_opportunity => [on_insert; on_update]
         | whatsapp_lead | email_case | webhook_custom => [on_insert]
         end.
Proof.
  split; [apply quick_setup_forwards|].
  destruct args as [[] o c]; reflexivity.
Qed.

Lemma integrationRecord_active c evs :
  integrationRecord c evs !! "Active__c" = Some (bool_value (active c)).
Proof. by vm_compute. Qed.

(** C10: whatever the caller passes, the configuration built by quick
    setup has [active = true], and every record a quick-setup run inserts
    is stored with [Active__c = true]. *)
Theorem quick_setup_always_active {W} (h : handler W) (w : W)
    (args : QuickSetupArgs) (now : N) :
  active (createQuickSetupConfig args now) = Some true /\
  inserted_records (fun record => record !! "Active__c" = Some (VBool true))
    (snd (run h (handleQuickSetupIntegration args now) w)).
Proof.
  assert (Hact : active (createQuickSetupConfig args now) = Some true).
  { destruct args as [[] o c]; reflexivity. }
  split; [done|].
  rewrite quick_setup_forwards.
  assert (Hev : exists evs,
             triggerEvents (createQuickSetupConfig args now) = Some evs).
  { destruct args as [[] o c]; cbn; eauto. }
  destruct Hev as [evs Hevs].
  destruct (createQuickSetupConfig args now) as [n t e a ac o te m cd act].
  cbn in Hevs, Hact. subst te act.
  unfold handleManageIntegrations, createIntegration.
  explore h ltac:(
    cbn [snd]; unfold inserted_records;
    repeat (apply Forall_cons; split;
            [first [exact I | apply integrationRecord_active]|]);
    apply Forall_nil_2).
Qed.

(** ** The password-grant connection *)

Lemma missing_falsy env k : missing env k <-> truthy (env_get env k) = false.
Proof.
  unfold missing, env_get. destruct (env !! k) as [s|]; cbn.
  - destruct s; cbn; split; (intros [H|H] || intros H); try done; eauto.
  - split; eauto.
Qed.

(** C7, as stated, fails for the login URL: with the three credentials set
    and [SALESFORCE_INSTANCE_URL] missing there is no configuration error;
    the login goes to the default URL. *)
Lemma login_url_is_not_required :
  missing env_no_url "SALESFORCE_INSTANCE_URL" /\
  run org_handler (createUserPasswordConnection env_no_url) empty_org
  = (inl {| loginUrl := "https://login.salesforce.com" |}, empty_org,
     [Ev (Login "https://login.salesforce.com" "user@example.test" "pwtok")
         (inl tt)]).
Proof. split; [by left|]. vm_compute. reflexivity. Qed.

(** C7, amended: the password grant requires the username, the password
    and the security token.  When one of them is missing the attempt
    fails, before any remote call, with the configuration error whose
    message lists all three variables; when none is missing the login is
    attempted with the password followed by the token, at
    [SALESFORCE_INSTANCE_URL] or, if that is missing, at the default
    login URL. *)
Theorem password_grant_requirements {W} (h : handler W) (w : W)
    (env : gmap string string) :
  (Exists (missing env) required_credentials ->
   run h (createUserPasswordConnection env) w = (inr missing_credentials, w, []) /\
   Forall (fun k => includes (error_text missing_credentials) k = true)
     required_credentials) /\
  (forall u p t,
     env !! "SALESFORCE_USERNAME" = Some u -> u <> "" ->
     env !! "SALESFORCE_PASSWORD" = Some p -> p <> "" ->
     env !! "SALESFORCE_TOKEN" = Some t -> t <> "" ->
     let attempt := Login (login_url env) u (p +:+ t) in
     let '(r, w') := h _ attempt w in
     run h (createUserPasswordConnection env) w
     = (match r with
        | inl _ => inl {| loginUrl := login_url env |}
        | inr e => inr e
        end, w', [Ev attempt r])).
Proof.
  split.
  - intros Hmiss. split; [|by repeat constructor].
    unfold createUserPasswordConnection.
    assert (negb (truthy (env_get env "SALESFORCE_USERNAME"))
            || negb (truthy (env_get env "SALESFORCE_PASSWORD"))
            || negb (truthy (env_get env "SALESFORCE_TOKEN")) = true) as ->; [|done].
    unfold required_credentials in Hmiss.
    rewrite !Exists_cons, Exists_nil in Hmiss.
    destruct Hmiss as [H|[H|[H|[]]]]; apply missing_falsy in H; rewrite H; cbn;
      by rewrite ?orb_true_r.
  - intros u p t Hu Hu' Hp Hp' Ht Ht'.
    assert (forall s, s <> "" -> String.eqb s "" = false) as Hne.
    { intros s Hs. by apply String.eqb_neq. }
    unfold createUserPasswordConnection, env_get, login_url.
    rewrite Hu, Hp, Ht. cbn [str_value truthy negb orb ToString].
    rewrite !Hne by done. cbn [negb orb].
    destruct (env !! "SALESFORCE_INSTANCE_URL") as [url|]; cbn.
    + unfold or_else. cbn. destruct (String.eqb url ""); cbn;
        by destruct (h _ _ w) as [[[]|e] w'].
    + by destruct (h _ _ w) as [[[]|e] w'].
Qed.

Lemma password_grant_requirements_witness :
  (Exists (missing env_no_token) required_credentials /\
   run org_handler (createUserPasswordConnection env_no_token) empty_org
   = (inr missing_credentials, empty_org, [])) /\
  run org_handler (createUserPasswordConnection env_no_url) empty_org
  = (inl {| loginUrl := "https://login.salesforce.com" |}, empty_org,
     [Ev (Login "https://login.salesforce.com" "user@example.test" "pwtok")
         (inl tt)]).
Proof.
  assert (H : Exists (missing env_no_token) required_credentials).
  { unfold required_credentials. do 2 apply Exists_cons_tl.
    apply Exists_cons_hd. by left. }
  split; [split; [exact H|]|].
  - exact (proj1 (proj1 (password_grant_requirements org_handler empty_org
                           env_no_token) H)).
  - exact (proj2 (password_grant_requirements org_handler empty_org env_no_url)
             "user@example.test" "pw" "tok"
             eq_refl ltac:(discriminate) eq_refl ltac:(discriminate)
             eq_refl ltac:(discriminate)).
Defined.

(** ** The reference platform and the lookup by name *)

Lemma strip_quote_app (n : string) : strip_quote (n +:+ "'") = Some n.
Proof.
  induction n as [|c r IH]; [done|].
  change (String c r +:+ "'") with (String c (r +:+ "'")).
  cbn [strip_quote]. rewrite IH.
  by destruct r.
Qed.

Lemma strip_prefix_app (p s : string) : strip_prefix p (p +:+ s) = Some s.
Proof.
  induction p as [|a p IH]; [by destruct s|].
  change (String a p +:+ s) with (String a (p +:+ s)).
  cbn [strip_prefix]. by rewrite Ascii.eqb_refl.
Qed.

Lemma lookup_literal_delete_query (n : string) :
  includes n "'" = false -> includes n "\" = false ->
  lookup_literal (delete_query (Some n)) = Some n.
Proof.
  intros H1 H2. unfold lookup_literal, delete_query, show.
  cbn [str_value ToString]. rewrite strip_prefix_app. cbn [mbind option_bind].
  rewrite strip_quote_app. cbn [mbind option_bind]. by rewrite H1, H2.
Qed.

(** On the reference platform, deleting a name that no stored record
    carries answers not-found and leaves the platform as it was. *)
Lemma org_delete_unknown (o : Org) (n : string) :
  provisioned o = true ->
  includes n "'" = false -> includes n "\" = false ->
  Forall (fun record => named (VStr n) record = false) (configs o) ->
  let '(res, o', tr) :=
    run org_handler
      (handleManageIntegrations
         {| operation := op_delete; integrationName := Some n; config := None |})
      o in
  res = inl (error_response (not_found (Some n))) /\ o' = o /\
  existsb mutates tr = false.
Proof.
  intros Hp H1 H2 Hnone.
  cbn [handleManageIntegrations deleteIntegration operation integrationName
       run bind try_catch await mbind mret prog_bind prog_ret org_handler].
  rewrite Hp. cbn [negb].
  assert (String.eqb (delete_query (Some n)) list_query = false) as ->
    by reflexivity.
  rewrite lookup_literal_delete_query by done.
  assert (filter (fun r => named (VStr n) r = true) (configs o) = []) as ->.
  { induction Hnone as [|r rs Hr _ IH]; [done|].
    rewrite filter_cons, IH. by destruct (decide _) as [E|_]; [rewrite Hr in E|]. }
  done.
Qed.

(** C4: the name is put between the quotes of the lookup query as it is.
    On a store whose only record is named [lead_hook], no record carries
    the name [O'Brien] or the name [x' OR Name != 'x].  Deleting the
    first sends a query that the platform rejects, and the answer is the
    text of that rejection, not the not-found error.  Deleting the second
    sends a lookup whose condition holds of every record: the record of
    [lead_hook] is found and deleted. *)
Theorem delete_name_is_not_escaped :
  let rejection := ErrorObj "MALFORMED_QUERY" "unexpected token" in
  let '(res, o, tr) :=
    run evaluating_handler (handleManageIntegrations (delete_args closing_name))
        org_with_lead_hook in
  (existsb (named (VStr "O'Brien")) (configs org_with_lead_hook) = false) /\
  (existsb (named (VStr closing_name)) (configs org_with_lead_hook) = false) /\
  (delete_query (Some closing_name)
   = "SELECT Id FROM Integration_Config__c WHERE Name = 'x' OR Name != 'x'") /\
  (run org_handler (handleManageIntegrations (delete_args "O'Brien"))
       org_with_lead_hook
   = (inl (error_response rejection), org_with_lead_hook,
      [Ev (Query "SELECT Id FROM Integration_Config__c WHERE Name = 'O'Brien'")
          (inr rejection)])) /\
  (error_response rejection <> error_response (not_found (Some "O'Brien"))) /\
  (res = inl (text_response ("🗑️ Integration " +:+ dq +:+ closing_name +:+ dq
                             +:+ " deleted successfully!"))) /\
  (configs org_with_lead_hook <> []) /\ (configs o = []) /\
  (existsb mutates tr = true).
Proof.
  intros rejection. vm_compute run.
  split; [vm_compute; reflexivity|]. split; [vm_compute; reflexivity|].
  split; [reflexivity|]. split; [vm_compute; reflexivity|].
  split; [intros [=]|]. split; [reflexivity|]. split; [discriminate|].
  split; [reflexivity|]. vm_compute; reflexivity.
Qed.

(** * Further properties of the sources *)

(** ** The operations of [handleManageIntegrations] *)

Ltac run_op :=
  cbn [handleManageIntegrations listIntegrations updateIntegration
       deleteIntegration activateIntegration operation config integrationName
       deref run bind try_catch await mbind mret prog_bind prog_ret records].

(** X1: whatever the arguments and whatever the remote does, every
    operation answers with one text item; nothing is thrown to the
    caller. *)
Theorem every_operation_answers_text {W} (h : handler W) (w : W)
    (args : ManageIntegrationsArgs) :
  exists t w' tr,
    run h (handleManageIntegrations args) w = (inl (text_response t), w', tr).
Proof.
  destruct args as [op n c]. destruct op.
  - destruct c as [[? ? ? ? ? ? [evs|] ? ? ?]|];
      unfold handleManageIntegrations, createIntegration;
      explore h ltac:(eauto).
  - run_op. destruct (h _ _ w) as [[[recs]|e] w']; run_op; [|eauto].
    destruct recs; cbn; eauto.
  - destruct c as [c|]; run_op; [|eauto].
    destruct (h _ _ w) as [[r|e] w']; run_op; eauto.
  - run_op. destruct (h _ _ w) as [[[recs]|e] w']; run_op; [|eauto].
    destruct recs as [|first rest]; run_op; [eauto|].
    destruct (h _ _ w') as [[r|e] w'']; run_op; eauto.
  - run_op. destruct (h _ _ w) as [[r|e] w']; run_op; eauto.
  - run_op. destruct (h _ _ w) as [[r|e] w']; run_op; eauto.
Qed.

(** X2: for update, delete, activate and deactivate a rejection by the
    remote is never swallowed: the answer is the error text carrying the
    message of the rejected call, which is the last call of the run. *)
Theorem rejections_are_reported {W} (h : handler W) (w : W)
    (args : ManageIntegrationsArgs) :
  operation args <> op_create -> operation args <> op_list ->
  let '(res, _, tr) := run h (handleManageIntegrations args) w in
  forall e, last (map (fun ev => match ev with
                                 | Ev _ (inr e) => Some e
                                 | Ev _ (inl _) => None
                                 end) tr) = Some (Some e) ->
            res = inl (error_response e).
Proof.
  destruct args as [op n c]. cbn. intros Hc Hl. destruct op; try done.
  - destruct c as [c|]; run_op; [|by intros e [=]].
    destruct (h _ _ w) as [[r|e] w']; run_op; by intros e' [= <-].
  - run_op. destruct (h _ _ w) as [[[recs]|e] w']; run_op;
      [|by intros e' [= <-]].
    destruct recs as [|first rest]; run_op; [by intros e [=]|].
    destruct (h _ _ w') as [[r|e] w'']; run_op; by intros e' [= <-].
  - run_op. destruct (h _ _ w) as [[r|e] w']; run_op; by intros e' [= <-].
  - run_op. destruct (h _ _ w) as [[r|e] w']; run_op; by intros e' [= <-].
Qed.

Lemma rejections_are_reported_witness :
  let args := {| operation := op_activate; integrationName := Some "lead_hook";
                 config := None |} in
  fst (fst (run (with_faults org_handler) (handleManageIntegrations args)
              (org_with_lead_hook, [Some storage_error])))
  = inl (error_response storage_error).
Proof.
  intros args.
  pose proof (rejections_are_reported (with_faults org_handler)
                (org_with_lead_hook, [Some storage_error]) args
                ltac:(discriminate) ltac:(discriminate)) as H.
  assert (last (map (fun ev => match ev with
                               | Ev _ (inr e) => Some e
                               | Ev _ (inl _) => None
                               end)
                  (snd (run (with_faults org_handler)
                          (handleManageIntegrations args)
                          (org_with_lead_hook, [Some storage_error]))))
          = Some (Some storage_error)) as P by (vm_compute; reflexivity).
  destruct (run _ _ _) as [[res w'] tr]. exact (H _ P).
Defined.

(** X3: [list] sends the one query and nothing else, and its answer is
    never the error response, whatever the remote answers. *)
Theorem list_is_read_only {W} (h : handler W) (w : W)
    (args : ManageIntegrationsArgs) :
  operation args = op_list ->
  let '(res, _, tr) := run h (handleManageIntegrations args) w in
  (exists r, tr = [Ev (Query list_query) r]) /\
  existsb mutates tr = false /\
  exists t, res = inl (text_response t) /\
            forall e, text_response t <> error_response e.
Proof.
  destruct args as [op n c]. cbn. intros ->. run_op.
  destruct (h _ _ w) as [[[recs]|e] w']; run_op.
  - destruct recs; cbn; (split; [eauto|]); (split; [done|]);
      eexists; (split; [reflexivity|]); by intros e [=].
  - split; [eauto|]. split; [done|]. eexists. split; [reflexivity|].
    by intros e' [=].
Qed.

Lemma list_is_read_only_witness :
  let args := {| operation := op_list; integrationName := None;
                 config := None |} in
  let '(res, o, tr) := run org_handler (handleManageIntegrations args)
                         org_with_two_hooks in
  (exists r, tr = [Ev (Query list_query) r]) /\
  existsb mutates tr = false /\
  exists t, res = inl (text_response t) /\
            forall e, text_response t <> error_response e.
Proof.
  exact (list_is_read_only org_handler org_with_two_hooks
           {| operation := op_list; integrationName := None; config := None |}
           eq_refl).
Defined.

(** X4: when the lookup returns records, [delete] removes exactly one of
    them, the first, by its [Id], however many carry the name, and
    deploys nothing; a rejected removal is answered with the error
    text. *)
Theorem delete_removes_first_match {W} (h : handler W) (w : W)
    (args : ManageIntegrationsArgs) first rest w1 :
  operation args = op_delete ->
  h _ (Query (delete_query (integrationName args))) w
    = (inl {| records := first :: rest |}, w1) ->
  let removal := SobjectDelete "Integration_Config__c" (get first "Id") in
  let '(r, w2) := h _ removal w1 in
  let '(res, w', tr) := run h (handleManageIntegrations args) w in
  w' = w2 /\
  deleted_ids tr = [get first "Id"] /\
  existsb is_metadata tr = false /\
  res = inl match r with
            | inl _ =>
                text_response ("🗑️ Integration " +:+ dq
                               +:+ show (integrationName args) +:+ dq
                               +:+ " deleted successfully!")
            | inr e => error_response e
            end.
Proof.
  destruct args as [op n c]. cbn. intros -> Hq. run_op. rewrite Hq. run_op.
  by destruct (h _ _ w1) as [[r|e] w2].
Qed.

Lemma delete_removes_first_match_witness :
  let args := {| operation := op_delete; integrationName := Some "lead_hook";
                 config := None |} in
  let result := run org_handler (handleManageIntegrations args)
                  org_with_two_hooks in
  length (configs org_with_two_hooks) = 2 /\
  length (configs (snd (fst result))) = 1 /\
  length (deleted_ids (snd result)) = 1 /\
  existsb is_metadata (snd result) = false.
Proof.
  intros args result.
  split; [reflexivity|]. split; [vm_compute; reflexivity|].
  assert (exists first rest,
             org_handler _ (Query (delete_query (integrationName args)))
               org_with_two_hooks
             = (inl {| records := first :: rest |}, org_with_two_hooks))
    as (first & rest & Hq) by (eexists _, _; vm_compute; reflexivity).
  pose proof (delete_removes_first_match org_handler org_with_two_hooks args
                first rest org_with_two_hooks eq_refl Hq) as H.
  cbv zeta in H.
  destruct (org_handler _ (SobjectDelete _ _) _) as [r o2] in H.
  subst result. destruct (run _ _ _) as [[res o] tr].
  destruct H as (_ & Hd & Hm & _). cbn [snd]. by rewrite Hd.
Defined.

(** ** The steps of [createIntegration] *)

(** X5: a create request without [config], or whose [config] has no
    [triggerEvents], is answered with an error text, and no record,
    trigger or class is sent; the schema has nevertheless been provisioned
    by then if the probe was rejected. *)
Theorem create_incomplete_config {W} (h : handler W) (w : W)
    (n : option string) (c : option IntegrationConfig) :
  (c = None \/ exists cfg, c = Some cfg /\ triggerEvents cfg = None) ->
  let '(res, _, tr) :=
    run h (handleManageIntegrations
             {| operation := op_create; integrationName := n; config := c |}) w in
  (exists e, res = inl (error_response e)) /\
  attempted tr = match fst (h _ (Describe "Integration_Config__c") w) with
                 | inl _ => []
                 | inr _ => [SchemaStep]
                 end.
Proof.
  intros [->|(cfg & -> & Hev)];
    [|destruct cfg as [? ? ? ? ? ? te ? ? ?]; cbn in Hev; subst te];
    unfold handleManageIntegrations, createIntegration;
    explore h ltac:(
      split; [eauto|];
      repeat match goal with
             | H : h _ _ _ = _ |- _ => rewrite H
             end;
      vm_compute; reflexivity).
Qed.

Lemma create_incomplete_config_witness :
  let result :=
    run org_handler
      (handleManageIntegrations
         {| operation := op_create; integrationName := None; config := None |})
      empty_org in
  (exists e, fst (fst result) = inl (error_response e)) /\
  attempted (snd result) = [SchemaStep] /\
  provisioned (snd (fst result)) = true.
Proof.
  intros result.
  pose proof (create_incomplete_config org_handler empty_org None None
                (or_introl eq_refl)) as H.
  assert (provisioned (snd (fst result)) = true) as P by (vm_compute; reflexivity).
  subst result. destruct (run _ _ _) as [[res o] tr].
  destruct H as [He Ha]. by repeat split.
Defined.

(** X6: in every run of create, the trigger and the class are deployed
    exactly when the insert of the record was accepted (so a rejected
    trigger never stops the class), the record is inserted at most once,
    and no query is made: the name is not looked up before it is used. *)
Theorem create_deploys_after_insert {W} (h : handler W) (w : W)
    (n : option string) (c : option IntegrationConfig) :
  let '(_, _, tr) :=
    run h (handleManageIntegrations
             {| operation := op_create; integrationName := n; config := c |}) w in
  existsb (in_step TriggerStep) tr = step_succeeded RecordStep tr /\
  existsb (in_step ClassStep) tr = step_succeeded RecordStep tr /\
  (length (List.filter (in_step RecordStep) tr) <=? 1)%nat = true /\
  existsb is_query tr = false.
Proof.
  destruct c as [[? ? ? ? ? ? [evs|] ? ? ?]|];
    unfold handleManageIntegrations, createIntegration;
    explore h ltac:(vm_compute; done).
Qed.

Lemma created_trigger_metadata (triggerName : string) (o : value)
    (body : string) :
  let metadata : gmap string value :=
    list_to_map [("fullName", VStr triggerName); ("tableEnumOrId", o);
                 ("status", VStr "Active"); ("body", VStr body)] in
  metadata !! "fullName" = Some (VStr triggerName) /\
  metadata !! "body" = Some (VStr body).
Proof. by vm_compute. Qed.

Lemma updated_trigger_metadata (triggerName body : string) :
  let metadata : gmap string value :=
    list_to_map [("fullName", VStr triggerName); ("body", VStr body)] in
  metadata !! "fullName" = Some (VStr triggerName) /\
  metadata !! "body" = Some (VStr body).
Proof. by vm_compute. Qed.

(** X7: whatever happens in a run of create, each trigger deployment it
    sends is named after the monitored object alone,
    [<objectName>IntegrationTrigger], and carries the code generated for
    this configuration: integrations on the same object share one
    trigger. *)
Theorem trigger_named_after_object {W} (h : handler W) (w : W)
    (c : IntegrationConfig) (evs : list TriggerEvent) :
  triggerEvents c = Some evs ->
  Forall (fun metadata =>
            metadata !! "fullName"
              = Some (VStr (show (objectName c) +:+ "IntegrationTrigger")) /\
            metadata !! "body" = Some (VStr (generateTriggerCode c evs)))
    (deployed_triggers (snd (run h (handleManageIntegrations (create_args c)) w))).
Proof.
  intros Hevs.
  destruct c as [n t e a ac o te m cd act]; cbn in Hevs; subst te.
  unfold handleManageIntegrations, createIntegration.
  explore h ltac:(
    cbn [snd deployed_triggers omap list_omap String.eqb Ascii.eqb Bool.eqb];
    repeat (apply Forall_cons; split;
            [first [apply created_trigger_metadata
                   |apply updated_trigger_metadata]|]);
    apply Forall_nil_2).
Qed.

Lemma trigger_named_after_object_witness :
  Forall (fun metadata =>
            metadata !! "fullName" = Some (VStr "LeadIntegrationTrigger") /\
            metadata !! "body"
              = Some (VStr (generateTriggerCode lead_hook [on_insert; on_update])))
    (deployed_triggers
       (snd (run org_handler (handleManageIntegrations (create_args lead_hook))
               org_with_lead_hook))).
Proof.
  exact (trigger_named_after_object org_handler org_with_lead_hook lead_hook
           [on_insert; on_update] eq_refl).
Defined.

(** X8: the record inserted by create has exactly the name and the nine
    fields that provisioning deploys, and the fields an update writes are
    among these nine. *)
Theorem record_fields_are_provisioned (c : IntegrationConfig)
    (evs : list TriggerEvent) :
  dom (integrationRecord c evs) = {["Name"]} ∪ provisioned_fields /\
  dom (updateData c) ⊆ provisioned_fields.
Proof.
  split.
  - unfold integrationRecord. rewrite dom_list_to_map_L. cbn [fmap list_fmap fst].
    compute_done.
  - unfold updateData.
    repeat match goal with
           | |- context [if ?b then _ else _] => destruct b
           | |- context [match ?o with Some _ => _ | None => _ end] => destruct o
           end;
      rewrite ?dom_insert_L, dom_empty_L; compute_done.
Qed.

(** X9: provisioning the schema sends the custom object and then its nine
    fields, in the declared order, and stops at the first call the remote
    rejects: the calls made are an initial part of that plan, none but the
    last was rejected, and the function returns exactly when all ten were
    accepted, throwing the error of the rejected call otherwise. *)
Theorem provisioning_stops_at_first_rejection {W} (h : handler W) (w : W) :
  let '(res, _, tr) := run h createIntegrationConfigObject w in
  map created tr `prefix_of` map Some provisioning_plan /\
  existsb rejected (removelast tr) = false /\
  match res with
  | inl _ => last_error tr = None /\ length tr = 10
  | inr e => last_error tr = Some e
  end.
Proof.
  explore h ltac:(
    split; [eexists; vm_compute; reflexivity|]; split; by vm_compute).
Qed.

(** ** Updates *)

Lemma updateData_same c1 c2 : same_updatable c1 c2 -> updateData c1 = updateData c2.
Proof.
  destruct c1, c2. intros (? & ? & ? & ? & ?). cbn in *. by subst.
Qed.

(** X10: [update] reads only endpoint, authConfig, messageTemplate,
    condition and active.  Two partial configurations that agree on these
    five make the same run: name, type, authType, objectName and
    triggerEvents are neither sent nor acted upon, and no trigger or class
    is deployed again. *)
Theorem update_ignores_trigger_settings {W} (h : handler W) (w : W)
    (n : option string) (c1 c2 : IntegrationConfig) :
  same_updatable c1 c2 ->
  let args c := {| operation := op_update; integrationName := n;
                   config := Some c |} in
  run h (handleManageIntegrations (args c1)) w
    = run h (handleManageIntegrations (args c2)) w /\
  existsb is_metadata (snd (run h (handleManageIntegrations (args c1)) w))
    = false /\
  Forall (fun k => update_payload n (updateData c1) !! k = None)
    ["Type__c"; "Auth_Type__c"; "Object_Name__c"; "Trigger_Events__c"].
Proof.
  intros Hsame args. split; [|split].
  - unfold args. run_op. by rewrite (updateData_same c1 c2).
  - unfold args. run_op. by destruct (h _ _ w) as [[r|e] w'].
  - repeat (apply Forall_cons; split;
            [rewrite update_payload_lookup by done; case_guards|]).
    apply Forall_nil_2.
Qed.

Lemma update_ignores_trigger_settings_witness :
  same_updatable lead_hook lead_hook_retargeted /\
  let args c := {| operation := op_update; integrationName := Some "lead_hook";
                   config := Some c |} in
  run org_handler (handleManageIntegrations (args lead_hook)) org_with_lead_hook
    = run org_handler (handleManageIntegrations (args lead_hook_retargeted))
        org_with_lead_hook.
Proof.
  assert (H : same_updatable lead_hook lead_hook_retargeted) by done.
  split; [exact H|].
  exact (proj1 (update_ignores_trigger_settings org_handler org_with_lead_hook
                  (Some "lead_hook") lead_hook lead_hook_retargeted H)).
Defined.

(** X11: activate and deactivate make the remote call that an update
    setting only [active] makes: same payload, hence the same effect on
    the remote and the same trace; only the wording of the success text
    differs. *)
Theorem activate_is_update_of_active {W} (h : handler W) (w : W)
    (n : option string) (b : bool) :
  let toggle := {| operation := if b then op_activate else op_deactivate;
                   integrationName := n; config := None |} in
  let update := {| operation := op_update; integrationName := n;
                   config := Some (only_active b) |} in
  let '(res1, w1, tr1) := run h (handleManageIntegrations toggle) w in
  let '(res2, w2, tr2) := run h (handleManageIntegrations update) w in
  w1 = w2 /\ tr1 = tr2 /\
  match last_error tr1 with
  | Some e => res1 = inl (error_response e) /\ res2 = inl (error_response e)
  | None => res1 = inl (text_response (success_text toggle)) /\
            res2 = inl (text_response (success_text update))
  end.
Proof.
  assert (update_payload n (updateData (only_active b))
          = update_payload n {["Active__c" := VBool b]}) as Hp by done.
  destruct b; run_op; rewrite Hp;
    by destruct (h _ _ w) as [[r|e] w'].
Qed.

(** ** Quick setup *)

Lemma quick_setup_config_valid args now :
  valid_create (createQuickSetupConfig args now).
Proof.
  destruct args as [[] o [? ? ? ? ? ? ? [hs|] ? ?]]; repeat split; cbn; eauto.
Qed.

(** At the four presets a quick-setup request is answered by create:
    with the success summary, or with the error text of a rejected schema
    or record call, and not with the handler's own error text. *)
Lemma quick_setup_preset_answers {W} (h : handler W) (w : W)
    (args : QuickSetupArgs) (now : N) :
  let forwarded := createQuickSetupConfig args now in
  let '(res, _, tr) := run h (handleQuickSetupIntegration args now) w in
  ((exists evs steps,
       res = inl (text_response (create_summary forwarded evs steps))) \/
   (exists e, res = inl (error_response e) /\
              (step_error SchemaStep tr = Some e \/
               step_error RecordStep tr = Some e))) /\
  forall e, res <> inl (quick_error_response e).
Proof.
  intros forwarded. rewrite quick_setup_forwards. fold forwarded.
  pose proof (quick_setup_config_valid args now) as Hv. fold forwarded in Hv.
  destruct (valid_create_events forwarded Hv) as [evs Hevs].
  destruct forwarded as [n t e a ac o te m cd act]; cbn in Hevs; subst te.
  unfold handleManageIntegrations, createIntegration.
  explore h ltac:(
    split;
    [first [left; eexists _, _; reflexivity
           |right; eexists; split; [reflexivity|]; vm_compute; auto]
    |intros ? [=]]).
Qed.

Lemma case_of_str (type : string) (t : QuickSetupType) :
  case_of type = Some t -> QuickSetupType_str t = type.
Proof.
  unfold case_of.
  repeat match goal with
         | |- context [String.eqb type ?s] =>
             destruct (String.eqb_spec type s) as [->|_]
         end; by intros [= <-].
Qed.

Lemma case_of_none (type : string) :
  case_of type = None -> forall t, QuickSetupType_str t <> type.
Proof. intros Hnone t <-. by destruct t. Qed.

Lemma quick_setup_cast_forwards {W} (h : handler W) (w : W)
    (args : CastArgs) (now : N) (t : QuickSetupType) :
  case_of (cast_type args) = Some t ->
  run h (handleQuickSetupIntegration_cast args now) w
  = run h (handleQuickSetupIntegration (typed args t) now) w.
Proof.
  intros Ht. unfold handleQuickSetupIntegration_cast,
    createQuickSetupConfig_cast. by rewrite Ht.
Qed.

(** X12: the server hands [type] over as any text.  When it is none of
    the four preset names, quick setup answers with its own error text,
    naming the type, and calls nothing on the platform.  When it is a
    preset name, the request runs as that preset and the answer is never
    that error text. *)
Theorem quick_setup_unknown_type {W} (h : handler W) (w : W)
    (args : CastArgs) (now : N) :
  match case_of (cast_type args) with
  | None =>
      (forall t, QuickSetupType_str t <> cast_type args) /\
      run h (handleQuickSetupIntegration_cast args now) w
      = (inl (text_response
                ("Error setting up quick integration: "
                 +:+ "Unknown quick setup type: " +:+ cast_type args)),
         w, [])
  | Some t =>
      QuickSetupType_str t = cast_type args /\
      run h (handleQuickSetupIntegration_cast args now) w
      = run h (handleManageIntegrations
                 (create_args (createQuickSetupConfig (typed args t) now))) w /\
      forall e, fst (fst (run h (handleQuickSetupIntegration_cast args now) w))
                <> inl (quick_error_response e)
  end.
Proof.
  destruct (case_of (cast_type args)) as [t|] eqn:Ht.
  - split; [by apply case_of_str|].
    rewrite (quick_setup_cast_forwards h w args now t Ht).
    split; [apply quick_setup_forwards|].
    pose proof (quick_setup_preset_answers h w (typed args t) now) as H.
    cbv zeta in H.
    destruct (run h (handleQuickSetupIntegration (typed args t) now) w)
      as [[res w'] tr].
    exact (proj2 H).
  - split; [by apply case_of_none|].
    unfold handleQuickSetupIntegration_cast, createQuickSetupConfig_cast.
    by rewrite Ht.
Qed.

Example quick_setup_sms_lead :
  run org_handler (handleQuickSetupIntegration_cast sms_request 1700000000000)
      empty_org
  = (inl (text_response
            "Error setting up quick integration: Unknown quick setup type: sms_lead"),
     empty_org, []).
Proof. reflexivity. Qed.

Lemma string_app_inj (p x y : string) : p +:+ x = p +:+ y -> x = y.
Proof. induction p as [|a p IH]; [done|]. intros [=]. auto. Qed.

(** X13: for a preset and an object, the generated name determines the
    clock reading and conversely: two quick setups get the same name
    exactly when they happen at the same millisecond. *)
Theorem quick_setup_name_per_millisecond (a1 a2 : QuickSetupArgs)
    (now1 now2 : N) :
  qs_type a1 = qs_type a2 -> qs_objectName a1 = qs_objectName a2 ->
  name (createQuickSetupConfig a1 now1) = name (createQuickSetupConfig a2 now2)
  <-> now1 = now2.
Proof.
  destruct a1 as [t1 o1 c1], a2 as [t2 o2 c2]. cbn. intros -> ->.
  assert (forall c now,
             name (createQuickSetupConfig
                     {| qs_type := t2; qs_objectName := o2; qs_config := c |} now)
             = Some (QuickSetupType_str t2 +:+ "_" +:+ o2 +:+ "_" +:+ pretty now))
    as Hn by (intros; by destruct t2).
  rewrite !Hn. split; [|by intros ->].
  intros [= H]. do 4 apply string_app_inj in H.
  by apply (inj pretty).
Qed.

Lemma quick_setup_name_per_millisecond_witness :
  name (createQuickSetupConfig slack_without_url 1700000000000)
    = name (createQuickSetupConfig slack_without_url 1700000000001)
  <-> 1700000000000%N = 1700000000001%N.
Proof.
  exact (quick_setup_name_per_millisecond slack_without_url slack_without_url
           1700000000000 1700000000001 eq_refl eq_refl).
Defined.

(** X14: the Slack and webhook presets accept a missing or empty URL: no
    error is raised, and every record the run inserts is stored with an
    empty [Endpoint__c]. *)
Theorem quick_setup_empty_endpoint {W} (h : handler W) (w : W)
    (args : QuickSetupArgs) (now : N) :
  match qs_type args with
  | slack_opportunity =>
      truthy (str_value (slackWebhookUrl (qs_config args))) = false
  | webhook_custom =>
      truthy (str_value (webhookUrl (qs_config args))) = false
  | _ => False
  end ->
  endpoint (createQuickSetupConfig args now) = Some "" /\
  inserted_records (fun record => record !! "Endpoint__c" = Some (VStr ""))
    (snd (run h (handleQuickSetupIntegration args now) w)).
Proof.
  intros Hurl.
  assert (He : endpoint (createQuickSetupConfig args now) = Some "").
  { destruct args as [[] o c]; try done; cbn in *;
      unfold or_str, or_else; by rewrite Hurl. }
  split; [done|].
  rewrite quick_setup_forwards.
  destruct (valid_create_events _ (quick_setup_config_valid args now))
    as [evs Hevs].
  destruct (createQuickSetupConfig args now) as [n t e a ac o te m cd act].
  cbn in Hevs, He. subst te e.
  unfold handleManageIntegrations, createIntegration.
  explore h ltac:(
    cbn [snd]; unfold inserted_records;
    repeat (apply Forall_cons; split; [first [exact I | by vm_compute]|]);
    apply Forall_nil_2).
Qed.

Lemma quick_setup_empty_endpoint_witness :
  endpoint (createQuickSetupConfig slack_without_url 1700000000000) = Some "" /\
  inserted_records (fun record => record !! "Endpoint__c" = Some (VStr ""))
    (snd (run org_handler
            (handleQuickSetupIntegration slack_without_url 1700000000000)
            empty_org)).
Proof.
  exact (quick_setup_empty_endpoint org_handler empty_org slack_without_url
           1700000000000 eq_refl).
Defined.

(** ** Connections *)

Lemma truthy_env_get env k :
  truthy (env_get env k) = true <-> exists v, env !! k = Some v /\ v <> "".
Proof.
  unfold env_get. destruct (env !! k) as [v|]; cbn.
  - destruct v; cbn; split; try done.
    + by intros (? & [= <-] & ?).
    + intros _. eauto.
  - split; [done|]. by intros (? & ? & ?).
Qed.

Lemma present_ToString env k v :
  env !! k = Some v -> v <> "" ->
  truthy (env_get env k) = true /\ ToString (env_get env k) = v.
Proof.
  intros H Hv. split; [apply truthy_env_get; eauto|].
  unfold env_get. by rewrite H.
Qed.

(** X15: only the exact selector [OAuth_2.0_Client_Credentials] chooses
    the client-credentials grant.  With the selector unset, empty or set
    to anything else, the connection is the password grant, whatever the
    token endpoint would answer. *)
Theorem selector_defaults_to_password {W} (h : handler W) (w : W)
    (env : gmap string string) fetch :
  env !! "SALESFORCE_CONNECTION_TYPE" <> Some "OAuth_2.0_Client_Credentials" ->
  run h (createSalesforceConnection env fetch) w =
  let '(res, w', tr) := run h (createUserPasswordConnection env) w in
  (match res with
   | inl conn => inl (PasswordConnection conn)
   | inr e => inr e
   end, w', tr).
Proof.
  intros Hsel. unfold createSalesforceConnection.
  assert (String.eqb
            (ToString (or_else (env_get env "SALESFORCE_CONNECTION_TYPE")
                         (VStr "User_Password")))
            "OAuth_2.0_Client_Credentials" = false) as ->.
  { unfold env_get, or_else.
    destruct (env !! "SALESFORCE_CONNECTION_TYPE") as [s|]; cbn; [|done].
    destruct (String.eqb s "") eqn:E; cbn; [done|].
    apply String.eqb_neq. by intros ->. }
  unfold mbind, prog_bind, mret, prog_ret. rewrite run_bind.
  destruct (run h (createUserPasswordConnection env) w) as [[[conn|e] w'] tr];
    cbn; [|done]. by rewrite app_nil_r.
Qed.

Lemma selector_defaults_to_password_witness :
  env_no_url !! "SALESFORCE_CONNECTION_TYPE" = None /\
  run org_handler (createSalesforceConnection env_no_url refusing) empty_org
  = (inl (PasswordConnection {| loginUrl := "https://login.salesforce.com" |}),
     empty_org,
     [Ev (Login "https://login.salesforce.com" "user@example.test" "pwtok")
         (inl tt)]).
Proof.
  split; [reflexivity|].
  rewrite (selector_defaults_to_password org_handler empty_org env_no_url
             refusing ltac:(discriminate)).
  vm_compute. reflexivity.
Defined.

Lemma run_oauth_selected {W} (h : handler W) (w : W)
    (env : gmap string string) fetch :
  env !! "SALESFORCE_CONNECTION_TYPE" = Some "OAuth_2.0_Client_Credentials" ->
  run h (createSalesforceConnection env fetch) w
  = (match createOAuthConnection env fetch with
     | inl conn => inl (ClientCredentialsConnection conn)
     | inr e => inr e
     end, w, []).
Proof.
  intros Hsel. unfold createSalesforceConnection, env_get at 1.
  rewrite Hsel. cbn. by destruct (createOAuthConnection env fetch).
Qed.

(** X16: under the client-credentials grant the client id, the client
    secret and the instance URL are all required, the instance URL
    included: when one is unset or empty the attempt fails with the
    configuration error before the token endpoint is contacted and
    without any call to the remote. *)
Theorem oauth_requires_instance_url {W} (h : handler W) (w : W)
    (env : gmap string string) fetch :
  env !! "SALESFORCE_CONNECTION_TYPE" = Some "OAuth_2.0_Client_Credentials" ->
  Exists (missing env)
    ["SALESFORCE_CLIENT_ID"; "SALESFORCE_CLIENT_SECRET";
     "SALESFORCE_INSTANCE_URL"] ->
  createOAuthConnection env fetch = inr missing_oauth_credentials /\
  run h (createSalesforceConnection env fetch) w
    = (inr missing_oauth_credentials, w, []).
Proof.
  intros Hsel Hmiss.
  assert (createOAuthConnection env fetch = inr missing_oauth_credentials) as Ho.
  { unfold createOAuthConnection.
    assert (negb (truthy (env_get env "SALESFORCE_CLIENT_ID"))
            || negb (truthy (env_get env "SALESFORCE_CLIENT_SECRET"))
            || negb (truthy (env_get env "SALESFORCE_INSTANCE_URL")) = true)
      as ->; [|done].
    rewrite !Exists_cons, Exists_nil in Hmiss.
    destruct Hmiss as [H|[H|[H|[]]]]; apply missing_falsy in H; rewrite H; cbn;
      by rewrite ?orb_true_r. }
  split; [done|].
  by rewrite (run_oauth_selected h w env fetch Hsel), Ho.
Qed.

Lemma oauth_requires_instance_url_witness :
  let env := delete "SALESFORCE_INSTANCE_URL" env_oauth in
  run org_handler (createSalesforceConnection env granting) empty_org
  = (inr missing_oauth_credentials, empty_org, []).
Proof.
  intros env.
  refine (proj2 (oauth_requires_instance_url org_handler empty_org env granting
                   eq_refl _)).
  do 2 apply Exists_cons_tl. apply Exists_cons_hd. by left.
Defined.

(** X17: with the three settings present, the client-credentials grant
    makes one token request, a POST of the client credentials to
    [<instance URL>/services/oauth2/token], and no call to the remote.  A
    refused request fails with the status text; a granted one initialises
    the connection with the instance URL and access token of the answer,
    not with the configured instance URL. *)
Theorem oauth_token_exchange {W} (h : handler W) (w : W)
    (env : gmap string string) fetch clientId clientSecret instanceUrl :
  env !! "SALESFORCE_CONNECTION_TYPE" = Some "OAuth_2.0_Client_Credentials" ->
  env !! "SALESFORCE_CLIENT_ID" = Some clientId -> clientId <> "" ->
  env !! "SALESFORCE_CLIENT_SECRET" = Some clientSecret -> clientSecret <> "" ->
  env !! "SALESFORCE_INSTANCE_URL" = Some instanceUrl -> instanceUrl <> "" ->
  let request :=
    {| fetch_url := instanceUrl +:+ "/services/oauth2/token";
       fetch_method := "POST";
       fetch_headers := [("Content-Type", "application/x-www-form-urlencoded")];
       fetch_body := [("grant_type", "client_credentials");
                      ("client_id", clientId);
                      ("client_secret", clientSecret)] |} in
  let '(res, w', tr) := run h (createSalesforceConnection env fetch) w in
  w' = w /\ tr = [] /\
  match fetch request with
  | inr e => res = inr e
  | inl response =>
      if ok response then
        forall tokenData instance_url access_token,
          json response = inl tokenData ->
          read_property tokenData "instance_url" = inl instance_url ->
          read_property tokenData "access_token" = inl access_token ->
          exists conn,
            res = inl (ClientCredentialsConnection conn) /\
            initialized_instanceUrl conn = instance_url /\
            initialized_accessToken conn = access_token /\
            constructed_instanceUrl conn = instanceUrl
      else
        res = inr (Error ("OAuth authentication failed: "
                          +:+ statusText response))
  end.
Proof.
  intros Hsel Hid Hid' Hsec Hsec' Hurl Hurl' request.
  destruct (present_ToString env _ _ Hid Hid') as [Ti Si].
  destruct (present_ToString env _ _ Hsec Hsec') as [Ts Ss].
  destruct (present_ToString env _ _ Hurl Hurl') as [Tu Su].
  rewrite (run_oauth_selected h w env fetch Hsel).
  split; [done|]. split; [done|].
  unfold createOAuthConnection, token_request.
  rewrite Ti, Ts, Tu, Si, Ss, Su. cbn [negb orb]. fold request.
  destruct (fetch request) as [response|e]; [|done].
  destruct (ok response); cbn [negb]; [|done].
  intros tokenData instance_url access_token -> Hi Ha. rewrite Hi, Ha.
  eexists. split; [reflexivity|]. done.
Qed.

Lemma oauth_token_exchange_witness :
  (exists conn,
      fst (fst (run org_handler (createSalesforceConnection env_oauth granting)
                  empty_org))
      = inl (ClientCredentialsConnection conn) /\
      initialized_instanceUrl conn = VStr "https://pod.example.test" /\
      initialized_accessToken conn = VStr "00D" /\
      constructed_instanceUrl conn = "https://org.example.test") /\
  fst (fst (run org_handler (createSalesforceConnection env_oauth refusing)
              empty_org))
  = inr (Error "OAuth authentication failed: Bad Request").
Proof.
  split.
  - pose proof (oauth_token_exchange org_handler empty_org env_oauth granting
                  "id" "secret" "https://org.example.test"
                  eq_refl eq_refl ltac:(discriminate) eq_refl ltac:(discriminate)
                  eq_refl ltac:(discriminate)) as H.
    cbv zeta in H.
    destruct (run _ _ _) as [[res o] tr].
    destruct H as (_ & _ & H). cbn in H.
    destruct (H _ _ _ eq_refl eq_refl eq_refl) as (conn & -> & Hi & Ha & Hc).
    by exists conn.
  - pose proof (oauth_token_exchange org_handler empty_org env_oauth refusing
                  "id" "secret" "https://org.example.test"
                  eq_refl eq_refl ltac:(discriminate) eq_refl ltac:(discriminate)
                  eq_refl ltac:(discriminate)) as H.
    cbv zeta in H.
    destruct (run _ _ _) as [[res o] tr].
    by destruct H as (_ & _ & ->).
Defined.

(** ** The request handler *)

Section CallToolProperties.
Context {W : Type} (h : handler W).
Context (as_ManageIntegrationsArgs : gmap string value -> ManageIntegrationsArgs).
Context (as_QuickSetupArgs : gmap string value -> QuickSetupArgs).
Context (env : gmap string string) (fetch : FetchRequest -> FetchResponse + exn).
Context (now : N).

Lemma run_ret {A} (a : A) (w : W) : run h (Ret a) w = (inl a, w, []).
Proof. done. Qed.

Lemma dispatched_returns name args (w : W) :
  exists resp w' tr, run h (dispatched as_ManageIntegrationsArgs as_QuickSetupArgs now name args) w = (inl resp, w', tr).
Proof.
  unfold dispatched. destruct (String.eqb name _); apply run_caught.
Qed.

(** X18: a request with arguments for a known tool, once the connection
    is made, gets the answer of the tool handler unchanged and without
    the error flag, also when that answer is an error text; its calls
    follow those of the connection. *)
Theorem tool_answers_are_not_flagged (w : W) (request : CallToolRequest)
    args conn w1 tr1 :
  arguments request = Some args ->
  dispatchable (tool_name request) args = true ->
  run h (createSalesforceConnection env fetch) w = (inl conn, w1, tr1) ->
  let '(res, w2, tr2) := run h (dispatched as_ManageIntegrationsArgs as_QuickSetupArgs now (tool_name request) args) w1 in
  exists resp,
    res = inl resp /\
    run h (callTool as_ManageIntegrationsArgs as_QuickSetupArgs env fetch now request) w
      = (inl {| tool_content := content resp; isError := false |}, w2,
         (tr1 ++ tr2)%list).
Proof.
  intros Ha Hd Hc. destruct request as [name a].
  cbn [arguments tool_name] in *. subst a.
  destruct (dispatched_returns name args w1) as (resp & w2 & tr2 & Hrun).
  rewrite Hrun. exists resp. split; [done|].
  unfold callTool. rewrite run_try_catch. cbn [arguments tool_name].
  unfold mbind, prog_bind, mret, prog_ret.
  rewrite run_bind, run_ret. cbv iota beta. rewrite run_bind, Hc.
  unfold dispatchable, dispatched in *.
  destruct (String.eqb name "salesforce_manage_integrations").
  - rewrite Hd. cbn [negb]. rewrite run_bind, Hrun.
    cbn. by rewrite app_nil_r.
  - destruct (String.eqb name "salesforce_quick_setup_integration"); [|done].
    apply andb_true_iff in Hd as [Hd H3]. apply andb_true_iff in Hd as [H1 H2].
    rewrite H1, H2, H3.
    change (negb true || negb true || negb true) with false. cbv iota.
    rewrite run_bind, Hrun. cbn. by rewrite app_nil_r.
Qed.

(** X19: the connection is made before the request is looked at.  A
    request without arguments is refused at once; with arguments, a failed
    connection, an unknown tool or a missing required argument is answered
    with the error flag after the calls of the connection and no others. *)
Theorem connection_precedes_validation (w : W) (request : CallToolRequest) :
  match arguments request with
  | None =>
      run h (callTool as_ManageIntegrationsArgs as_QuickSetupArgs env fetch now request) w
        = (inl (flagged "Error: Arguments are required"), w, [])
  | Some args =>
      let '(cres, w1, tr1) := run h (createSalesforceConnection env fetch) w in
      match cres with
      | inr e =>
          run h (callTool as_ManageIntegrationsArgs as_QuickSetupArgs env fetch now request) w
            = (inl (flagged ("Error: " +:+ error_text e)), w1, tr1)
      | inl _ =>
          dispatchable (tool_name request) args = false ->
          exists t, run h (callTool as_ManageIntegrationsArgs as_QuickSetupArgs env fetch now request) w = (inl (flagged t), w1, tr1)
      end
  end.
Proof.
  destruct request as [name [args|]]; cbn [arguments tool_name]; [|done].
  unfold callTool. rewrite run_try_catch. cbn [arguments tool_name].
  unfold mbind, prog_bind, mret, prog_ret.
  rewrite run_bind, run_ret. cbv iota beta. rewrite run_bind.
  destruct (run h (createSalesforceConnection env fetch) w)
    as [[[conn|e] w1] tr1]; [|cbn; by rewrite app_nil_r].
  unfold dispatchable.
  destruct (String.eqb name "salesforce_manage_integrations").
  - intros ->. cbn. rewrite !app_nil_r. eauto.
  - destruct (String.eqb name "salesforce_quick_setup_integration").
    + intros Hd.
      assert (negb (truthy (get args "type"))
              || negb (truthy (get args "objectName"))
              || negb (truthy (get args "config")) = true) as ->.
      { destruct (truthy (get args "type")), (truthy (get args "objectName")),
          (truthy (get args "config")); done. }
      cbn. rewrite !app_nil_r. eauto.
    + intros _. cbn. rewrite !app_nil_r. eauto.
Qed.

End CallToolProperties.

Lemma tool_answers_are_not_flagged_witness :
  let request :=
    {| tool_name := "salesforce_manage_integrations";
       arguments := Some {["operation" := VStr "delete";
                           "integrationName" := VStr "ghost"]} |} in
  let as_manage (args : gmap string value) :=
    {| operation := op_delete; integrationName := Some "ghost"; config := None |} in
  let as_quick (args : gmap string value) := slack_without_url in
  run org_handler
      (callTool as_manage as_quick env_no_url refusing 0 request)
      org_with_lead_hook
  = (inl {| tool_content := content (error_response (not_found (Some "ghost")));
            isError := false |},
     org_with_lead_hook,
     [Ev (Login "https://login.salesforce.com" "user@example.test" "pwtok")
         (inl tt);
      Ev (Query (delete_query (Some "ghost"))) (inl {| records := [] |})]).
Proof.
  intros request as_manage as_quick.
  pose proof (tool_answers_are_not_flagged org_handler as_manage as_quick
                env_no_url refusing 0 org_with_lead_hook request
                _ (PasswordConnection {| loginUrl := "https://login.salesforce.com" |})
                org_with_lead_hook
                [Ev (Login "https://login.salesforce.com" "user@example.test"
                       "pwtok") (inl tt)]
                eq_refl eq_refl ltac:(vm_compute; reflexivity)) as H.
  cbv zeta in H.
  assert (run org_handler
            (dispatched as_manage as_quick 0 (tool_name request)
               {["operation" := VStr "delete"; "integrationName" := VStr "ghost"]})
            org_with_lead_hook
          = (inl (error_response (not_found (Some "ghost"))), org_with_lead_hook,
             [Ev (Query (delete_query (Some "ghost"))) (inl {| records := [] |})]))
    as E by (vm_compute; reflexivity).
  rewrite E in H. destruct H as (resp & [= <-] & H). exact H.
Defined.

Lemma connection_precedes_validation_witness :
  let request := {| tool_name := "salesforce_query"; arguments := Some ∅ |} in
  let as_manage (args : gmap string value) :=
    {| operation := op_list; integrationName := None; config := None |} in
  let as_quick (args : gmap string value) := slack_without_url in
  exists t,
    run org_handler (callTool as_manage as_quick env_no_url refusing 0 request)
        empty_org
    = (inl (flagged t), empty_org,
       [Ev (Login "https://login.salesforce.com" "user@example.test" "pwtok")
           (inl tt)]).
Proof.
  intros request as_manage as_quick.
  pose proof (connection_precedes_validation org_handler as_manage as_quick
                env_no_url refusing 0 empty_org request) as H.
  cbn [arguments request] in H.
  assert (run org_handler (createSalesforceConnection env_no_url refusing)
            empty_org
          = (inl (PasswordConnection
                    {| loginUrl := "https://login.salesforce.com" |}),
             empty_org,
             [Ev (Login "https://login.salesforce.com" "user@example.test"
                    "pwtok") (inl tt)])) as E by (vm_compute; reflexivity).
  rewrite E in H. exact (H eq_refl).
Defined.

(** ** The message template of the callout service *)

Lemma includes_cons c s t : includes (String c s) t = false ->
  starts_with (String c s) t = false /\ includes s t = false.
Proof. cbn [includes]. by intros [? ?]%orb_false_iff. Qed.

(** A target that does not occur is not replaced. *)
Lemma replace_absent s target replacement :
  includes s target = false -> replace s target replacement = s.
Proof.
  unfold replace. induction s as [|c s IH]; [done|].
  intros [Hs Hi]%includes_cons. cbn [replace_from]. rewrite Hs.
  by rewrite IH.
Qed.

Lemma starts_with_app t s : starts_with (t +:+ s) t = true.
Proof.
  induction t as [|a t IH]; [done|].
  change (String a t +:+ s) with (String a (t +:+ s)).
  cbn [starts_with]. by rewrite Ascii.eqb_refl, IH.
Qed.

Lemma replace_from_skip a b target replacement :
  replace_from (String.length a) (a +:+ b) target replacement
  = replace_from 0 b target replacement.
Proof. induction a as [|c a IH]; [done|]. cbn. apply IH. Qed.

Lemma includes_brace s x :
  includes s "{" = false -> includes s (String "{" x) = false.
Proof.
  induction s as [|c s IH]; [done|].
  intros [Hs Hi]%includes_cons. cbn [includes]. rewrite IH by done.
  cbn in Hs |- *. rewrite andb_true_r in Hs. by rewrite Hs.
Qed.

(** One placeholder between texts without an opening brace. *)
Lemma replace_placeholder pre post f v :
  includes pre "{" = false -> includes post "{" = false ->
  replace (pre +:+ "{" +:+ f +:+ "}" +:+ post) ("{" +:+ f +:+ "}") v
  = pre +:+ v +:+ post.
Proof.
  intros Hpre Hpost. unfold replace.
  induction pre as [|c pre IH].
  - change (EmptyString +:+ "{" +:+ f +:+ "}" +:+ post)
      with (String "{" (f +:+ "}" +:+ post)).
    rewrite <- (string_app_assoc f "}" post).
    cbn [replace_from].
    assert (starts_with (String "{" ((f +:+ "}") +:+ post)) ("{" +:+ f +:+ "}")
            = true) as ->.
    { cbn. apply starts_with_app. }
    change (String.length ("{" +:+ f +:+ "}") - 1)%nat
      with (String.length (f +:+ "}") - 0)%nat.
    rewrite Nat.sub_0_r, replace_from_skip.
    change (EmptyString +:+ v +:+ post) with (v +:+ post).
    f_equal. apply replace_absent. by apply includes_brace.
  - apply includes_cons in Hpre as [Hs Hi].
    change (String c pre +:+ "{" +:+ f +:+ "}" +:+ post)
      with (String c (pre +:+ "{" +:+ f +:+ "}" +:+ post)).
    cbn [replace_from].
    assert (starts_with (String c (pre +:+ "{" +:+ f +:+ "}" +:+ post))
              ("{" +:+ f +:+ "}") = false) as ->.
    { change ("{" +:+ f +:+ "}") with (String "{" (f +:+ "}")).
      cbn [starts_with] in Hs |- *. rewrite andb_true_r in Hs. by rewrite Hs. }
    change (String c pre +:+ v +:+ post) with (String c (pre +:+ v +:+ post)).
    f_equal. by apply IH.
Qed.

(** X20: a template in which no placeholder of a populated, non-null
    field occurs is sent as it is: placeholders of other fields, and text
    without placeholders, stay verbatim. *)
Theorem prepareMessage_keeps_unmatched (template : string)
    (record : list (string * option string)) :
  Forall (fun field => snd field <> None ->
                       includes template ("{" +:+ fst field +:+ "}") = false)
    record ->
  prepareMessage template record = template.
Proof.
  unfold prepareMessage. induction 1 as [|[f [v|]] record Hf _ IH]; [done|..];
    cbn [fold_left fill fst snd].
  - by rewrite replace_absent by (by apply Hf).
  - done.
Qed.

Lemma prepareMessage_keeps_unmatched_witness :
  prepareMessage "New lead {Name} from {Company}"
    [("Email", Some "a@example.test"); ("Name", None)]
  = "New lead {Name} from {Company}".
Proof.
  apply prepareMessage_keeps_unmatched.
  repeat (apply Forall_cons; split; [cbn; intros ?; by vm_compute|]).
  apply Forall_nil_2.
Defined.

Lemma fold_fill_unmatched (message : string)
    (record : list (string * option string)) :
  Forall (fun field => snd field <> None ->
                       includes message ("{" +:+ fst field +:+ "}") = false)
    record ->
  fold_left fill record message = message.
Proof.
  induction 1 as [|[f [v|]] record Hf _ IH]; [done|..];
    cbn [fold_left fill fst snd].
  - by rewrite replace_absent by (by apply Hf).
  - done.
Qed.

(** X21: a template made of one placeholder [{f}] between texts without
    an opening brace is filled with the value of field [f], for every
    record in which no populated field listed before [f] has its
    placeholder in the template and no populated field listed after [f]
    has its placeholder in the filled message. *)
Theorem prepareMessage_fills_placeholder (pre post f v : string)
    (before after : list (string * option string)) :
  includes pre "{" = false -> includes post "{" = false ->
  Forall (fun field =>
            snd field <> None ->
            includes (pre +:+ "{" +:+ f +:+ "}" +:+ post)
              ("{" +:+ fst field +:+ "}") = false)
    before ->
  Forall (fun field =>
            snd field <> None ->
            includes (pre +:+ v +:+ post) ("{" +:+ fst field +:+ "}") = false)
    after ->
  prepareMessage (pre +:+ "{" +:+ f +:+ "}" +:+ post)
    (before ++ (f, Some v) :: after)
  = pre +:+ v +:+ post.
Proof.
  intros Hpre Hpost Hbefore Hafter. unfold prepareMessage.
  rewrite fold_left_app, (fold_fill_unmatched _ _ Hbefore).
  cbn [fold_left fill fst snd].
  rewrite (replace_placeholder pre post f v Hpre Hpost).
  by apply fold_fill_unmatched.
Qed.

Lemma prepareMessage_fills_placeholder_witness :
  prepareMessage ("Hi " +:+ "{" +:+ "Name" +:+ "}" +:+ "!")
    ([("Email", Some "ada@example.test"); ("Phone", None)]
       ++ ("Name", Some "Ada") :: [("Name", Some "Eve"); ("Id", Some "001")])
  = "Hi " +:+ "Ada" +:+ "!".
Proof.
  apply prepareMessage_fills_placeholder; [reflexivity|reflexivity|..];
    repeat (apply Forall_cons; split; [cbn; intros ?; by vm_compute|]);
    apply Forall_nil_2.
Defined.

(** X22: the loop substitutes into the message built so far, so a value
    that itself reads as the placeholder of a later field is substituted
    again: field values are not kept apart from the template. *)
Theorem prepareMessage_rescans_values (a b x : string) :
  prepareMessage ("{" +:+ a +:+ "}")
    [(a, Some ("{" +:+ b +:+ "}")); (b, Some x)]
  = x.
Proof.
  assert (forall s : string, s +:+ "" = s) as Hnil.
  { induction s as [|c s IH]; [done|].
    change (String c (s +:+ "") = String c s). by rewrite IH. }
  assert (forall f v, replace ("{" +:+ f +:+ "}") ("{" +:+ f +:+ "}") v = v)
    as Hwhole.
  { intros f v. rewrite <- (Hnil v) at 2.
    exact (replace_placeholder "" "" f v eq_refl eq_refl). }
  unfold prepareMessage. cbn [fold_left fill fst snd].
  by rewrite !Hwhole.
Qed.

(** ** Create and delete on the reference platform *)

Ltac org_call :=
  match goal with
  | |- context [org_handler ?X ?c ?w] =>
      let r := eval cbn [org_handler provisioned configs next_id triggers
                         classes negb String.eqb Ascii.eqb Bool.eqb]
               in (org_handler X c w) in
      change (org_handler X c w) with r
  end.

Lemma full_name_created (s : string) (o : value) (body : string) :
  full_name (list_to_map [("fullName", VStr s); ("tableEnumOrId", o);
                          ("status", VStr "Active"); ("body", VStr body)]) = s.
Proof. by vm_compute. Qed.

Lemma full_name_updated (s body : string) :
  full_name (list_to_map [("fullName", VStr s); ("body", VStr body)]) = s.
Proof. by vm_compute. Qed.

Lemma full_name_class (s body : string) :
  full_name (list_to_map [("fullName", VStr s); ("status", VStr "Active");
                          ("body", VStr body)]) = s.
Proof. by vm_compute. Qed.

Lemma stored_record_name c evs i :
  get (<["Id" := VStr i]> (integrationRecord c evs)) "Name" = str_value (name c).
Proof. by vm_compute. Qed.

Lemma stored_record_id c evs i :
  get (<["Id" := VStr i]> (integrationRecord c evs)) "Id" = VStr i.
Proof. by vm_compute. Qed.

(** What a create leaves on the reference platform. *)
Lemma org_after_create (o : Org) (c : IntegrationConfig) evs :
  triggerEvents c = Some evs ->
  let o1 := snd (fst (run org_handler
                        (handleManageIntegrations (create_args c)) o)) in
  provisioned o1 = true /\
  configs o1 = <["Id" := VStr ("a0X" +:+ pretty (next_id o))]>
                 (integrationRecord c evs) :: configs o /\
  is_Some (triggers o1 !! (show (objectName c) +:+ "IntegrationTrigger")) /\
  is_Some (classes o1 !! "IntegrationCalloutService").
Proof.
  intros Hevs.
  destruct c as [n t e a ac ob te m cd act]; cbn in Hevs; subst te.
  destruct o as [p cs nid ts cl].
  unfold handleManageIntegrations, createIntegration.
  unfold_prog.
  destruct p;
    repeat (cbn [run bind try_catch await mbind mret prog_bind prog_ret];
            first [ org_call
                  | rewrite full_name_created
                  | rewrite full_name_updated
                  | rewrite full_name_class
                  | match goal with
                    | H : ?m !! ?k = _ |- context [?m !! ?k] => rewrite H
                    end
                  | match goal with
                    | |- context [match ?m !! ?k with _ => _ end] =>
                        destruct (m !! k) eqn:?
                    end
                  | match goal with
                    | |- context [instanceof_Error ?e && includes ?a ?b] =>
                        let v := eval vm_compute
                                 in (instanceof_Error e && includes a b) in
                        change (instanceof_Error e && includes a b) with v
                    end ]);
    cbn [run bind try_catch await mbind mret prog_bind prog_ret
         fst snd provisioned configs triggers classes];
    rewrite ?lookup_insert_eq; by eauto.
Qed.

Lemma filter_named_none n (cs : list (gmap string value)) :
  Forall (fun record => named (VStr n) record = false) cs ->
  filter (fun r => named (VStr n) r = true) cs = [].
Proof.
  induction 1 as [|r rs Hr _ IH]; [done|].
  rewrite filter_cons, IH. by destruct (decide _) as [E|_]; [rewrite Hr in E|].
Qed.

Lemma filter_other_ids i (cs : list (gmap string value)) :
  Forall (fun record => has_id i record = false) cs ->
  filter (fun r => has_id i r = false) cs = cs.
Proof.
  induction 1 as [|r rs Hr _ IH]; [done|].
  rewrite filter_cons, IH. by destruct (decide _).
Qed.

(** X23: on the reference platform, take a store and a name, free of
    quotes and of backslashes, that no stored record carries, and suppose
    that no stored record has the id the platform assigns next.  Creating
    an integration under that name and then deleting it by that name
    answers that it was deleted and leaves the stored configurations as
    they were, while the trigger and the class that the create deployed
    stay deployed. *)
Theorem create_then_delete_restores_configs (o : Org) (c : IntegrationConfig)
    (n : string) evs :
  name c = Some n -> triggerEvents c = Some evs ->
  includes n "'" = false -> includes n "\" = false ->
  Forall (fun record => named (VStr n) record = false) (configs o) ->
  Forall (fun record =>
            has_id (VStr ("a0X" +:+ pretty (next_id o))) record = false)
    (configs o) ->
  let o1 := snd (fst (run org_handler
                        (handleManageIntegrations (create_args c)) o)) in
  let '(res, o2, _) :=
    run org_handler
      (handleManageIntegrations
         {| operation := op_delete; integrationName := Some n; config := None |})
      o1 in
  res = inl (text_response ("🗑️ Integration " +:+ dq +:+ n +:+ dq
                            +:+ " deleted successfully!")) /\
  configs o2 = configs o /\
  triggers o2 = triggers o1 /\ classes o2 = classes o1 /\
  is_Some (triggers o2 !! (show (objectName c) +:+ "IntegrationTrigger")) /\
  is_Some (classes o2 !! "IntegrationCalloutService").
Proof.
  intros Hn Hevs Hq1 Hq2 Hfresh Hid o1.
  destruct (org_after_create o c evs Hevs) as (Hp & Hc & Ht & Hcl).
  fold o1 in Hp, Hc, Ht, Hcl. clearbody o1.
  destruct o1 as [p1 cs1 nid1 ts1 cl1]. cbn [provisioned configs triggers classes] in *.
  subst p1 cs1.
  set (i := "a0X" +:+ pretty (next_id o)) in *.
  run_op. org_call.
  assert (String.eqb (delete_query (Some n)) list_query = false) as ->
    by reflexivity.
  rewrite lookup_literal_delete_query by done.
  rewrite filter_cons, (filter_named_none n (configs o)) by done.
  destruct (decide _) as [_|Hno];
    [|exfalso; apply Hno; unfold named;
      rewrite stored_record_name, Hn; cbn [str_value];
      by rewrite String.eqb_refl].
  run_op. org_call.
  rewrite stored_record_id.
  assert (has_id (VStr i) (<["Id" := VStr i]> (integrationRecord c evs)) = true)
    as Hself.
  { unfold has_id. by rewrite stored_record_id, String.eqb_refl. }
  cbn [existsb]. rewrite Hself. cbn [orb]. run_op.
  rewrite filter_cons, filter_other_ids by done.
  destruct (decide _) as [Hyes|_]; [by rewrite Hself in Hyes|].
  cbn [configs triggers classes]. done.
Qed.

Lemma create_then_delete_restores_configs_witness :
  configs org_with_lead_hook <> [] /\
  let o1 := snd (fst (run org_handler
                        (handleManageIntegrations (create_args case_hook))
                        org_with_lead_hook)) in
  let '(res, o2, _) :=
    run org_handler
      (handleManageIntegrations
         {| operation := op_delete; integrationName := Some "case_hook";
            config := None |})
      o1 in
  res = inl (text_response ("🗑️ Integration " +:+ dq +:+ "case_hook" +:+ dq
                            +:+ " deleted successfully!")) /\
  configs o2 = configs org_with_lead_hook /\
  triggers o2 = triggers o1 /\ classes o2 = classes o1 /\
  is_Some (triggers o2 !! (show (objectName case_hook) +:+ "IntegrationTrigger")) /\
  is_Some (classes o2 !! "IntegrationCalloutService").
Proof.
  split; [discriminate|].
  apply (create_then_delete_restores_configs org_with_lead_hook case_hook
           "case_hook" [on_insert] eq_refl eq_refl eq_refl eq_refl).
  - apply Forall_cons; split; [vm_compute; reflexivity|apply Forall_nil_2].
  - apply Forall_cons; split; [vm_compute; reflexivity|apply Forall_nil_2].
Defined.
